(** * LSP-fleet: provisioning of the [fleet-schema-gen] binary

    A shallow embedding of [sublime-package/plugin.py].  The host (platform
    name, settings, executable search, network answers, injected I/O
    failures) is a read-only record [env]; the storage the plugin mutates
    (files, the requests it sent, the lines it printed) is a record [world]
    threaded through a state-and-exception monad. *)

From Stdlib Require Import ZArith String Ascii List Bool Lia.
From stdpp Require Import base option strings gmap.


(** ** Python [str] methods used by the plugin

    A Python [str] is modelled as a Rocq [string] whose characters are the
    code points below 256. *)
Module Py.

(** [str.isspace] on one code point below 256: TAB..CR, FS..US, SPACE,
    NEL and NBSP. *)
Definition isspace (c : ascii) : bool :=
  let n := nat_of_ascii c in
  ((9 <=? n) && (n <=? 13) || (28 <=? n) && (n <=? 32)
   || (n =? 133) || (n =? 160))%nat.

(** [str.lower] on one code point below 256: A..Z and the Latin-1 capitals
    (all of 0xC0..0xDE but the multiplication sign) move up by 32. *)
Definition lower_char (c : ascii) : ascii :=
  let n := nat_of_ascii c in
  if ((65 <=? n) && (n <=? 90)
      || (192 <=? n) && (n <=? 222) && negb (n =? 215))%nat
  then ascii_of_nat (n + 32) else c.

Fixpoint lower (s : string) : string :=
  match s with
  | EmptyString => EmptyString
  | String c s' => String (lower_char c) (lower s')
  end.

(** [s.startswith(p)] *)
Fixpoint startswith (s p : string) : bool :=
  match p, s with
  | EmptyString, _ => true
  | String _ _, EmptyString => false
  | String a p', String b s' => Ascii.eqb a b && startswith s' p'
  end.

(** [s.endswith(p)]: some tail of [s] is [p]. *)
Fixpoint endswith (s p : string) : bool :=
  String.eqb s p ||
  match s with
  | EmptyString => false
  | String _ s' => endswith s' p
  end.

Fixpoint mem_char (c : ascii) (chars : string) : bool :=
  match chars with
  | EmptyString => false
  | String d chars' => Ascii.eqb c d || mem_char c chars'
  end.

(** [s.lstrip(chars)]: drop the leading characters that occur in [chars]. *)
Fixpoint lstrip (chars s : string) : string :=
  match s with
  | EmptyString => EmptyString
  | String c s' => if mem_char c chars then lstrip chars s' else s
  end.

Fixpoint lstrip_ws (s : string) : string :=
  match s with
  | EmptyString => EmptyString
  | String c s' => if isspace c then lstrip_ws s' else s
  end.

Fixpoint rstrip_ws (s : string) : string :=
  match s with
  | EmptyString => EmptyString
  | String c s' =>
      match rstrip_ws s' with
      | EmptyString => if isspace c then EmptyString else String c EmptyString
      | r => String c r
      end
  end.

(** [s.strip()] *)
Definition strip (s : string) : string := rstrip_ws (lstrip_ws s).

(** [s.split()]: the maximal runs of non-space characters, in order.
    [cur] is the run being read. *)
Fixpoint split_from (cur s : string) : list string :=
  match s with
  | EmptyString => match cur with EmptyString => [] | _ => [cur] end
  | String c s' =>
      if isspace c
      then match cur with
           | EmptyString => split_from EmptyString s'
           | _ => cur :: split_from EmptyString s'
           end
      else split_from (cur +:+ String c EmptyString) s'
  end.

Definition split (s : string) : list string := split_from EmptyString s.

(** [l[-1]]; [None] stands for [IndexError]. *)
Definition last_item {A} (l : list A) : option A :=
  match rev l with
  | [] => None
  | x :: _ => Some x
  end.

(** Truth value of an [Optional[str]]: [None] and the empty string are
    false. *)
Definition truthy (o : option string) : bool :=
  match o with
  | None => false
  | Some EmptyString => false
  | Some _ => true
  end.

(** [os.path.join(a, b)] on POSIX. *)
Definition path_join (a b : string) : string :=
  if startswith b "/" then b
  else match a with
       | EmptyString => b
       | _ => if endswith a "/" then a +:+ b else a +:+ "/" +:+ b
       end.

End Py.

Definition BINARY_NAME : string := "fleet-schema-gen".
Definition GITHUB_REPO : string := "fleetdm/fleet".
Definition PACKAGE_NAME : string := "LSP-fleet".

(** ** Platform tag *)

(** [machine in (a, b)] *)
Definition one_of (m a b : string) : bool := String.eqb m a || String.eqb m b.

(** [get_platform_suffix], as a function of what [platform.system()] and
    [platform.machine()] answer. *)
Definition get_platform_suffix_of (sys mach : string) : option string :=
  let system := Py.lower sys in
  let machine := Py.lower mach in
  if String.eqb system "darwin" then
    if one_of machine "arm64" "aarch64" then Some "darwin-arm64"
    else if one_of machine "x86_64" "amd64" then Some "darwin-x64"
    else None
  else if String.eqb system "linux" then
    if one_of machine "x86_64" "amd64" then Some "linux-x64"
    else if one_of machine "aarch64" "arm64" then Some "linux-arm64"
    else None
  else if String.eqb system "windows" then Some "windows-x64"
  else None.

(** ** Data model *)

(** One entry of a release's ["assets"] array. *)
Record asset := mk_asset {
  asset_name : string;            (* asset["name"] *)
  browser_download_url : string   (* asset["browser_download_url"] *)
}.

(** One entry of the release listing.  The source reads the assets with
    [release.get("assets", [])], so the key may be absent. *)
Record release := mk_release {
  tag_name : string;
  assets : option (list asset)
}.

(** A regular file: permission bits and contents. *)
Record file := mk_file {
  st_mode : Z;
  contents : string
}.

(** A member of a tar archive: a regular file. *)
Record tar_member := mk_member {
  member_name : string;
  member_mode : Z;
  member_data : string
}.

(** What a write does when the host interferes: it goes through, it is
    refused before the file is touched, or it stops after [n] characters. *)
Inductive io_outcome :=
| IoOk
| IoRefused
| IoTorn (n : nat).

(** What the archive download does: [urlopen] raises, the connection opens
    and [read] raises, or the body arrives. *)
Inductive http_outcome :=
| HttpRefused
| HttpBroken
| HttpBody (body : string).

(** What [subprocess.run([binary, "--version"], timeout=5)] does: it raises
    (timeout, missing or non-executable file, undecodable output) or the
    process exits. *)
Inductive probe_outcome :=
| ProbeRaised
| ProbeExit (returncode : Z) (stdout : string).

Inductive exn :=
| FetchError          (* listing: urlopen, read, decode or json.loads *)
| URLError            (* archive: urlopen *)
| IncompleteRead      (* archive: response.read() *)
| ArchiveOpenError    (* open(archive_path, "wb") *)
| ArchiveWriteError   (* f.write(...) *)
| TarReadError        (* tarfile.open(archive_path, "r:gz") *)
| ExtractError        (* tar.extract(member, storage_path) *)
| FileNotFoundError   (* stat or unlink of a missing file *)
| ChmodError          (* binary_path.chmod(...) *)
| UnlinkError         (* archive_path.unlink() *)
| MarkerOpenError     (* version_file.write_text: opening the file *)
| MarkerWriteError    (* version_file.write_text: writing to it *)
| SubprocessError     (* subprocess.run *)
| IndexError          (* [][-1] *)
| RuntimeError (message : string).

(** The lines the plugin prints. *)
Inductive msg :=
| MsgFetchFailed (e : exn)
| MsgUnsupported (system machine : string)
| MsgNoReleaseInfo
| MsgNoAsset (name : string)
| MsgDownloading (name : string)
| MsgInstalled (version : string)
| MsgDownloadFailed (e : exn).

(** The host, fixed during one call. *)
Record env := mk_env {
  platform_system : string;              (* platform.system() *)
  platform_machine : string;             (* platform.machine() *)
  cache_path : string;                   (* sublime.cache_path() *)
  home : string;                         (* os.path.expanduser("~") *)
  setting_binary_path : option string;   (* settings.get("binary_path") *)
  which : option string;                 (* shutil.which(BINARY_NAME) *)
  listing : option (list release);       (* the decoded listing; None when
                                            fetching or reading it raises *)
  http_get : string -> http_outcome;     (* the archive download, by URL *)
  untar : string -> option (list tar_member);  (* tar.gz decoding *)
  io_archive : io_outcome;               (* writing the archive *)
  io_extract : io_outcome;               (* writing the extracted member *)
  chmod_fails : bool;
  unlink_fails : bool;
  io_marker : io_outcome;                (* writing the version file *)
  run_version : string -> gmap string file -> probe_outcome
                                         (* the version probe, by the path
                                            run and the files present *)
}.

(** What the plugin changes: files by path, the URLs it requested and the
    lines it printed, both oldest first. *)
Record world := mk_world {
  files : gmap string file;
  requests : list string;
  printed : list msg
}.

(** ** State and exception monad *)

Inductive result (A : Type) :=
| Ok (a : A)
| Raise (e : exn).
Arguments Ok {A} a.
Arguments Raise {A} e.

Definition M (A : Type) : Type := world -> result A * world.

Definition ret {A} (a : A) : M A := fun w => (Ok a, w).

Definition bind {A B} (c : M A) (k : A -> M B) : M B :=
  fun w => match c w with
           | (Ok a, w') => k a w'
           | (Raise e, w') => (Raise e, w')
           end.

Definition raise {A} (e : exn) : M A := fun w => (Raise e, w).

(** [try: c  except Exception as e: h e] *)
Definition try_except {A} (c : M A) (h : exn -> M A) : M A :=
  fun w => match c w with
           | (Ok a, w') => (Ok a, w')
           | (Raise e, w') => h e w'
           end.

Definition get_files : M (gmap string file) := fun w => (Ok (files w), w).

Definition set_files (fs : gmap string file) : M unit :=
  fun w => (Ok tt, mk_world fs (requests w) (printed w)).

Definition print (m : msg) : M unit :=
  fun w => (Ok tt, mk_world (files w) (requests w) (printed w ++ [m])).

Definition send_request (url : string) : M unit :=
  fun w => (Ok tt, mk_world (files w) (requests w ++ [url]) (printed w)).

Notation "x <- c ;; k" := (bind c (fun x => k))
  (at level 100, c at next level, right associativity).
Notation "c ;;; k" := (bind c (fun _ => k))
  (at level 100, right associativity).

(** ** File system primitives *)

(** The file at a path; the empty path names nothing. *)
Definition lookup_file (fs : gmap string file) (p : string) : option file :=
  match p with
  | EmptyString => None
  | _ => fs !! p
  end.

(** [Path.exists] and [os.path.isfile]: the model holds regular files only,
    so the two agree. *)
Definition path_exists (p : string) : M bool :=
  fs <- get_files ;; ret (bool_decide (is_Some (lookup_file fs p))).

Definition isfile (fs : gmap string file) (p : string) : bool :=
  bool_decide (is_Some (lookup_file fs p)).

(** [os.access(p, os.X_OK)], read off the permission bits: the answer is
    yes when some execute bit is set.  Which of the three bits counts for
    the calling user is not modelled. *)
Definition access_x (fs : gmap string file) (p : string) : bool :=
  match lookup_file fs p with
  | Some f => negb (Z.land (st_mode f) 73 =? 0)%Z
  | None => false
  end.

(** New files are created with mode 0o644. *)
Definition DEFAULT_MODE : Z := 420%Z.

(** Replace the contents of [p], creating it if needed; an existing file
    keeps its mode. *)
Definition set_contents (p data : string) : M unit :=
  fs <- get_files ;;
  let mode := match lookup_file fs p with
              | Some f => st_mode f
              | None => DEFAULT_MODE
              end in
  set_files (<[p := mk_file mode data]> fs).

(** [open(p, "w")]: refused, or the file is created or truncated. *)
Definition open_truncate (io : io_outcome) (e : exn) (p : string) : M unit :=
  match io with
  | IoRefused => raise e
  | _ => set_contents p EmptyString
  end.

(** [f.write(data)] and the close that follows: a torn write leaves the
    first [n] characters and raises. *)
Definition write_all (io : io_outcome) (e : exn) (p data : string) : M unit :=
  match io with
  | IoTorn n => set_contents p (String.substring 0 n data) ;;; raise e
  | _ => set_contents p data
  end.

(** Reading a file whole: the archive, and [version_file.read_text()].
    The text of an existing file is its contents: decoding is taken to
    succeed and to change nothing. *)
Definition read_file (p : string) : M string :=
  fs <- get_files ;;
  match lookup_file fs p with
  | Some f => ret (contents f)
  | None => raise FileNotFoundError
  end.

(** ** The plugin *)

Definition get_platform_suffix (e : env) : option string :=
  get_platform_suffix_of (platform_system e) (platform_machine e).

(** [Path(cache_path) / "Package Storage" / PACKAGE_NAME], spelled as
    [os.path.join] spells it.  Directories are not part of [world]: the
    [mkdir] on the way is taken to succeed. *)
Definition get_storage_path (e : env) : M string :=
  ret (Py.path_join (Py.path_join (cache_path e) "Package Storage") PACKAGE_NAME).

Definition find_binary_in_path (e : env) : option string := which e.

Definition common_paths (e : env) : list string :=
  [ Py.path_join (Py.path_join (Py.path_join (home e) ".cargo") "bin") BINARY_NAME;
    "/opt/homebrew/bin/" +:+ BINARY_NAME;
    "/usr/local/bin/" +:+ BINARY_NAME;
    "/usr/bin/" +:+ BINARY_NAME ].

Fixpoint first_executable (fs : gmap string file) (paths : list string)
  : option string :=
  match paths with
  | [] => None
  | path :: rest =>
      if isfile fs path && access_x fs path then Some path
      else first_executable fs rest
  end.

Definition find_binary_in_common_paths (e : env) : M (option string) :=
  fs <- get_files ;; ret (first_executable fs (common_paths e)).

Definition RELEASES_URL : string :=
  "https://api.github.com/repos/" +:+ GITHUB_REPO +:+ "/releases".

(** [release.get("assets", [])] *)
Definition assets_of (r : release) : list asset :=
  match assets r with
  | Some l => l
  | None => []
  end.

(** The inner loop of [get_latest_release_info]: does some asset name
    start with [BINARY_NAME]? *)
Fixpoint has_binary_asset (l : list asset) : bool :=
  match l with
  | [] => false
  | a :: l' =>
      if Py.startswith (asset_name a) BINARY_NAME then true
      else has_binary_asset l'
  end.

(** The outer loop: the release returned, if any. *)
Fixpoint first_release_with_asset (releases : list release) : option release :=
  match releases with
  | [] => None
  | r :: rest =>
      if has_binary_asset (assets_of r) then Some r
      else first_release_with_asset rest
  end.

(** [urlopen(req, timeout=30)] followed by [json.loads]. *)
Definition fetch_releases (e : env) : M (list release) :=
  send_request RELEASES_URL ;;;
  match listing e with
  | Some releases => ret releases
  | None => raise FetchError
  end.

Definition get_latest_release_info (e : env) : M (option release) :=
  try_except
    (releases <- fetch_releases e ;;
     ret (first_release_with_asset releases))
    (fun ex => print (MsgFetchFailed ex) ;;; ret None).

(** The loop that looks for the asset of this version and platform. *)
Fixpoint find_asset_url (name : string) (l : list asset) : option string :=
  match l with
  | [] => None
  | a :: l' =>
      if String.eqb (asset_name a) name then Some (browser_download_url a)
      else find_asset_url name l'
  end.

(** The archive member to extract: the first one named [BINARY_NAME] or
    ending with ["/" + BINARY_NAME]. *)
Fixpoint find_member (members : list tar_member) : option tar_member :=
  match members with
  | [] => None
  | m :: rest =>
      if String.eqb (member_name m) BINARY_NAME
         || Py.endswith (member_name m) ("/" +:+ BINARY_NAME)
      then Some m
      else find_member rest
  end.

(** [urlopen(req, timeout=120)], [open(archive_path, "wb")],
    [response.read()] and [f.write], in that order. *)
Definition download_archive (e : env) (asset_url archive_path : string) : M unit :=
  send_request asset_url ;;;
  match http_get e asset_url with
  | HttpRefused => raise URLError
  | response =>
      open_truncate (io_archive e) ArchiveOpenError archive_path ;;;
      body <- match response with
              | HttpBody body => ret body
              | _ => raise IncompleteRead
              end ;;
      write_all (io_archive e) ArchiveWriteError archive_path body
  end.

(** [tar.extract(member, storage_path)] after [member.name = BINARY_NAME],
    for a member that is a regular file, the only kind [tar_member] has:
    the data is written first, the member's mode is set last. *)
Definition tar_extract (e : env) (m : tar_member) (storage_path : string) : M unit :=
  let target := Py.path_join storage_path BINARY_NAME in
  open_truncate (io_extract e) ExtractError target ;;;
  write_all (io_extract e) ExtractError target (member_data m) ;;;
  fs <- get_files ;;
  set_files (<[target := mk_file (member_mode m) (member_data m)]> fs).

Definition extract_binary (e : env) (archive_path storage_path : string) : M unit :=
  data <- read_file archive_path ;;
  match untar e data with
  | None => raise TarReadError
  | Some members =>
      match find_member members with
      | Some member => tar_extract e member storage_path
      | None => ret tt
      end
  end.

(** [S_IXUSR | S_IXGRP | S_IXOTH] are or-ed into the mode one by one. *)
Definition S_IXUSR : Z := 64%Z.
Definition S_IXGRP : Z := 8%Z.
Definition S_IXOTH : Z := 1%Z.

Definition make_executable (e : env) (binary_path : string) : M unit :=
  fs <- get_files ;;
  match lookup_file fs binary_path with
  | None => raise FileNotFoundError
  | Some f =>
      if chmod_fails e then raise ChmodError
      else set_files
             (<[binary_path :=
                  mk_file (Z.lor (Z.lor (Z.lor (st_mode f) S_IXUSR) S_IXGRP) S_IXOTH)
                          (contents f)]> fs)
  end.

Definition unlink (e : env) (p : string) : M unit :=
  fs <- get_files ;;
  match lookup_file fs p with
  | None => raise FileNotFoundError
  | Some _ => if unlink_fails e then raise UnlinkError else set_files (delete p fs)
  end.

Definition write_text (e : env) (p data : string) : M unit :=
  open_truncate (io_marker e) MarkerOpenError p ;;;
  write_all (io_marker e) MarkerWriteError p data.

(** The body of the [try] block of [download_binary]: download, extract,
    chmod, remove the archive, write the version file. *)
Definition install_steps (e : env)
    (storage_path binary_path version_file asset_name asset_url version : string)
  : M (option string) :=
  let archive_path := Py.path_join storage_path asset_name in
  download_archive e asset_url archive_path ;;;
  extract_binary e archive_path storage_path ;;;
  make_executable e binary_path ;;;
  unlink e archive_path ;;;
  write_text e version_file version ;;;
  print (MsgInstalled version) ;;;
  ret (Some binary_path).

(** [binary_path.exists() and version_file.exists()] and, when both hold,
    [version_file.read_text().strip() == version]. *)
Definition already_installed (binary_path version_file version : string) : M bool :=
  b <- path_exists binary_path ;;
  if b then
    v <- path_exists version_file ;;
    if v then
      text <- read_file version_file ;;
      ret (String.eqb (Py.strip text) version)
    else ret false
  else ret false.

Definition download_binary (e : env) : M (option string) :=
  match get_platform_suffix e with
  | None | Some EmptyString =>
      print (MsgUnsupported (platform_system e) (platform_machine e)) ;;;
      ret None
  | Some platform_suffix =>
      storage_path <- get_storage_path e ;;
      let binary_path := Py.path_join storage_path BINARY_NAME in
      release <- get_latest_release_info e ;;
      match release with
      | None =>
          b <- path_exists binary_path ;;
          if b then ret (Some binary_path)
          else print MsgNoReleaseInfo ;;; ret None
      | Some release =>
          let version := Py.lstrip "v" (tag_name release) in
          let asset_name :=
            BINARY_NAME +:+ "-" +:+ version +:+ "-" +:+ platform_suffix +:+ ".tar.gz" in
          match find_asset_url asset_name (assets_of release) with
          | None | Some EmptyString =>
              print (MsgNoAsset asset_name) ;;; ret None
          | Some asset_url =>
              let version_file := Py.path_join storage_path "version" in
              current <- already_installed binary_path version_file version ;;
              if current then ret (Some binary_path)
              else
                print (MsgDownloading asset_name) ;;;
                try_except
                  (install_steps e storage_path binary_path version_file
                                 asset_name asset_url version)
                  (fun ex =>
                     print (MsgDownloadFailed ex) ;;;
                     b <- path_exists binary_path ;;
                     if b then ret (Some binary_path) else ret None)
          end
      end
  end.

(** [custom_path and os.path.isfile(custom_path)] *)
Definition configured_file (fs : gmap string file) (custom_path : option string)
  : bool :=
  match custom_path with
  | Some p => Py.truthy custom_path && isfile fs p
  | None => false
  end.

Definition get_binary_path (e : env) : M (option string) :=
  (* 1. user-configured path *)
  fs <- get_files ;;
  let custom_path := setting_binary_path e in
  if configured_file fs custom_path then ret custom_path
  else
    (* 2. PATH *)
    let path := find_binary_in_path e in
    if Py.truthy path then ret path
    else
      (* 3. common locations *)
      path <- find_binary_in_common_paths e ;;
      if Py.truthy path then ret path
      else
        (* 4. download *)
        path <- download_binary e ;;
        if Py.truthy path then ret path else ret None.

(** ** The [FleetLsp] plugin class *)
Module FleetLsp.

Definition name : string := PACKAGE_NAME.

Definition basedir (e : env) : M string := get_storage_path e.

(** [subprocess.run([binary, "--version"], capture_output=True,
    text=True, timeout=5)], run with the files as they are. *)
Definition subprocess_run (e : env) (binary : string) : M (Z * string) :=
  fs <- get_files ;;
  match run_version e binary fs with
  | ProbeRaised => raise SubprocessError
  | ProbeExit code out => ret (code, out)
  end.

(** [l[-1]] *)
Definition last_or_raise (l : list string) : M string :=
  match Py.last_item l with
  | Some x => ret x
  | None => raise IndexError
  end.

(** The [try] block returns [Some v] where the source returns [v] from
    inside it and [None] where control falls out of it. *)
Definition server_version (e : env) : M string :=
  binary <- get_binary_path e ;;
  probed <-
    match binary with
    | Some (String c b) =>
        try_except
          (result <- subprocess_run e (String c b) ;;
           if (fst result =? 0)%Z
           then v <- last_or_raise (Py.split (Py.strip (snd result))) ;;
                ret (Some v)
           else ret None)
          (fun _ => ret None)
    | _ => ret None
    end ;;
  match probed with
  | Some v => ret v
  | None => ret "unknown"
  end.

Definition needs_update_or_installation (e : env) : M bool :=
  path <- get_binary_path e ;;
  ret (match path with None => true | Some _ => false end).

Definition install_or_update (e : env) : M unit :=
  path <- download_binary e ;;
  if negb (Py.truthy path)
  then raise (RuntimeError "Failed to download fleet-schema-gen binary")
  else ret tt.

Definition additional_variables (e : env) : M (list (string * string)) :=
  binary <- get_binary_path e ;;
  ret [("binary_path", if Py.truthy binary then default EmptyString binary
                       else EmptyString)].

End FleetLsp.

(** ** Vocabulary of the statements *)

(** A release ships the binary when one of its assets has a name that
    starts with [BINARY_NAME]. *)
Definition ships_binary (r : release) : Prop :=
  exists a rest, In a (assets_of r) /\ asset_name a = BINARY_NAME +:+ rest.

(** The rows of the platform table, on lower-cased names. *)
Definition platform_row (s m : string) (tag : string) : Prop :=
  (s = "darwin" /\ (m = "arm64" \/ m = "aarch64") /\ tag = "darwin-arm64") \/
  (s = "darwin" /\ (m = "x86_64" \/ m = "amd64") /\ tag = "darwin-x64") \/
  (s = "linux" /\ (m = "x86_64" \/ m = "amd64") /\ tag = "linux-x64") \/
  (s = "linux" /\ (m = "aarch64" \/ m = "arm64") /\ tag = "linux-arm64") \/
  (s = "windows" /\ tag = "windows-x64").

(** The paths and names [download_binary] computes. *)
Definition storage_dir (e : env) : string :=
  Py.path_join (Py.path_join (cache_path e) "Package Storage") PACKAGE_NAME.

Definition binary_file (e : env) : string :=
  Py.path_join (storage_dir e) BINARY_NAME.

Definition version_file (e : env) : string :=
  Py.path_join (storage_dir e) "version".

Definition version_of (r : release) : string := Py.lstrip "v" (tag_name r).

Definition archive_name (r : release) (platform_suffix : string) : string :=
  BINARY_NAME +:+ "-" +:+ version_of r +:+ "-" +:+ platform_suffix +:+ ".tar.gz".

Definition archive_file (e : env) (r : release) (platform_suffix : string) : string :=
  Py.path_join (storage_dir e) (archive_name r platform_suffix).

(** What [os.path.join] puts in front of a relative second argument. *)
Definition dir_prefix (a : string) : string :=
  match a with
  | EmptyString => EmptyString
  | _ => if Py.endswith a "/" then a else a +:+ "/"
  end.

(** A step leaves every file but [p], and the printed lines, alone. *)
Definition touches_only (p : string) (w w' : world) : Prop :=
  (forall q, q <> p -> files w' !! q = files w !! q) /\
  printed w' = printed w.

(** The exceptions of the download and of opening the archive: when one
    of them is raised nothing has been extracted yet. *)
Definition download_failure (x : exn) : bool :=
  match x with
  | URLError | IncompleteRead | ArchiveOpenError | ArchiveWriteError
  | TarReadError => true
  | _ => false
  end.

(** The test [download_binary] makes before downloading: the binary and the
    version file exist and the stripped text of the version file is the
    version of the release. *)
Definition is_current (fs : gmap string file) (binary_path version_path version : string)
  : bool :=
  match lookup_file fs binary_path, lookup_file fs version_path with
  | Some _, Some f => String.eqb (Py.strip (contents f)) version
  | _, _ => false
  end.

(** The world after the release listing was fetched and decoded. *)
Definition listed (w : world) : world :=
  mk_world (files w) (requests w ++ [RELEASES_URL]) (printed w).

(** The world in which the [try] block of [download_binary] starts. *)
Definition downloading (w : world) (name : string) : world :=
  mk_world (files w) (requests w ++ [RELEASES_URL])
           (printed w ++ [MsgDownloading name]).

(** The [except] clause of [download_binary], run in the world [w1] the
    [try] block left behind. *)
Definition fallback (e : env) (x : exn) (w1 : world)
  : result (option string) * world :=
  (Ok (if isfile (files w1) (binary_file e) then Some (binary_file e) else None),
   mk_world (files w1) (requests w1) (printed w1 ++ [MsgDownloadFailed x])).

(** The release [download_binary] works with: the first one of the listing
    that ships the binary. *)
Definition latest_release (e : env) : option release :=
  match listing e with
  | Some releases => first_release_with_asset releases
  | None => None
  end.

(** Idempotence of the installation, read literally: binary present and
    version file equal to the version of the latest release are enough for
    [download_binary] to return the path without any request. *)
Definition install_is_idempotent (e : env) (w : world) : Prop :=
  forall rel f,
    latest_release e = Some rel ->
    is_Some (lookup_file (files w) (binary_file e)) ->
    lookup_file (files w) (version_file e) = Some f ->
    contents f = version_of rel ->
    exists w',
      download_binary e w = (Ok (Some (binary_file e)), w') /\
      requests w' = requests w.


(** White space only. *)
Fixpoint blank (s : string) : bool :=
  match s with
  | EmptyString => true
  | String c s' => Py.isspace c && blank s'
  end.

(** No white space at all. *)
Fixpoint solid (s : string) : bool :=
  match s with
  | EmptyString => true
  | String c s' => negb (Py.isspace c) && solid s'
  end.

(** [tok] is the last white-space-delimited token of [out]: a non-empty
    run without white space, followed by white space only, and preceded by
    nothing or by a white-space character. *)
Definition last_token (out tok : string) : Prop :=
  tok <> EmptyString /\ solid tok = true /\
  exists pre post,
    out = pre +:+ tok +:+ post /\ blank post = true /\
    (pre = EmptyString \/
     exists pre' c, pre = pre' +:+ String c EmptyString /\ Py.isspace c = true).

(** ** Example hosts and storage directories *)

Definition release_231 : release :=
  mk_release "v2.3.1"
    (Some [mk_asset "fleet-schema-gen-2.3.1-linux-x64.tar.gz"
                    "https://example.test/fleet-schema-gen-2.3.1-linux-x64.tar.gz"]).

Definition release_without_binary : release :=
  mk_release "v9.9.9" (Some [mk_asset "fleetctl-9.9.9.tar.gz" "https://example.test/fleetctl"]).

(** A version probe for the examples: a file that is run prints its own
    contents and exits with code 0; running a path that names no file
    raises. *)
Definition prints_contents (binary : string) (fs : gmap string file)
  : probe_outcome :=
  match lookup_file fs binary with
  | Some f => ProbeExit 0 (contents f)
  | None => ProbeRaised
  end.

(** A host that publishes [release_without_binary] and then [release_231],
    whose archive holds [members]; [unlink_fails] makes the removal of the
    archive fail. *)
Definition example_host (sys mach : string) (members : list tar_member)
    (unlink_fails : bool) : env :=
  {| platform_system := sys;
     platform_machine := mach;
     cache_path := "/cache";
     home := "/home/user";
     setting_binary_path := None;
     which := None;
     listing := Some [release_without_binary; release_231];
     http_get := fun _ => HttpBody "archive-bytes";
     untar := fun _ => Some members;
     io_archive := IoOk;
     io_extract := IoOk;
     chmod_fails := false;
     unlink_fails := unlink_fails;
     io_marker := IoOk;
     run_version := prints_contents |}.

Definition good_archive : list tar_member :=
  [mk_member "README.md" 420 "read me";
   mk_member "fleet-schema-gen-2.3.1/fleet-schema-gen" 493 "binary 2.3.1"].

Definition archive_without_binary : list tar_member :=
  [mk_member "README.md" 420 "read me";
   mk_member "bin/fleet-schema-gen.exe" 493 "binary 2.3.1"].

Definition linux_host : env := example_host "Linux" "x86_64" good_archive false.

Definition mac_host : env := example_host "Darwin" "arm64" good_archive false.

Definition bsd_host : env := example_host "FreeBSD" "amd64" good_archive false.

Definition linux_host_unlink_fails : env :=
  example_host "Linux" "x86_64" good_archive true.

Definition linux_host_odd_archive : env :=
  example_host "Linux" "x86_64" archive_without_binary false.

(** A host with a configured path and another binary on the search path. *)
Definition configured_host : env :=
  {| platform_system := "Linux";
     platform_machine := "x86_64";
     cache_path := "/cache";
     home := "/home/user";
     setting_binary_path := Some "/opt/tools/fleet-schema-gen";
     which := Some "/usr/bin/fleet-schema-gen";
     listing := None;
     http_get := fun _ => HttpRefused;
     untar := fun _ => None;
     io_archive := IoOk;
     io_extract := IoOk;
     chmod_fails := false;
     unlink_fails := false;
     io_marker := IoOk;
     run_version := fun _ _ => ProbeRaised |}.

(** The configured file is not executable; the one in [/usr/bin] is. *)
Definition two_binaries : world :=
  mk_world
    (<["/opt/tools/fleet-schema-gen" := mk_file 420 "configured"]>
       (<["/usr/bin/fleet-schema-gen" := mk_file 493 "system"]> ∅))
    [] [].

Definition empty_storage : world := mk_world ∅ [] [].

(** A storage directory left by an earlier installation of [version]. *)
Definition installed_storage (version : string) : world :=
  mk_world
    (<["/cache/Package Storage/LSP-fleet/fleet-schema-gen" := mk_file 493 "binary old"]>
       (<["/cache/Package Storage/LSP-fleet/version" := mk_file 420 version]> ∅))
    [] [].

(** ** Further vocabulary *)

(** The mode [download_binary] gives the binary: the three execute bits
    or-ed into [mode], as in the source. *)
Definition add_exec_bits (mode : Z) : Z :=
  Z.lor (Z.lor (Z.lor mode S_IXUSR) S_IXGRP) S_IXOTH.

(** The test of [find_binary_in_common_paths] on one candidate. *)
Definition usable (fs : gmap string file) (p : string) : Prop :=
  isfile fs p = true /\ access_x fs p = true.

(** None of the three local strategies of [get_binary_path] finds a
    binary. *)
Definition no_local_binary (e : env) (w : world) : Prop :=
  configured_file (files w) (setting_binary_path e) = false /\
  Py.truthy (find_binary_in_path e) = false /\
  first_executable (files w) (common_paths e) = None.

(** [n] copies of the letter v. *)
Fixpoint leading_vs (n : nat) : string :=
  match n with
  | O => EmptyString
  | S n' => String "v" (leading_vs n')
  end.

(** A Linux host that publishes the releases of [example_host] and refuses
    the download of the archive. *)
Definition linux_host_no_download : env :=
  {| platform_system := "Linux";
     platform_machine := "x86_64";
     cache_path := "/cache";
     home := "/home/user";
     setting_binary_path := None;
     which := None;
     listing := Some [release_without_binary; release_231];
     http_get := fun _ => HttpRefused;
     untar := fun _ => None;
     io_archive := IoOk;
     io_extract := IoOk;
     chmod_fails := false;
     unlink_fails := false;
     io_marker := IoOk;
     run_version := fun _ _ => ProbeRaised |}.

(** The exceptions raised once the archive is stored and before it is
    removed: decoding, extraction, permission change and the removal
    itself. *)
Definition raised_with_archive_stored (x : exn) : bool :=
  match x with
  | TarReadError | ExtractError | FileNotFoundError | ChmodError
  | UnlinkError => true
  | _ => false
  end.

(** The protection the version file is meant to give, read literally: after
    a call that ended in the [except] clause the version file is absent or
    holds what it held before the call, and [server_version], asked next,
    does not answer with the version of the release whose installation
    failed. *)
Definition failed_install_stays_hidden (e : env) (w : world) : Prop :=
  forall r w' name x rel,
    download_binary e w = (r, w') ->
    printed w' = printed w ++ [MsgDownloading name; MsgDownloadFailed x] ->
    latest_release e = Some rel ->
    (lookup_file (files w') (version_file e) = None \/
     contents <$> lookup_file (files w') (version_file e) =
     contents <$> lookup_file (files w) (version_file e)) /\
    fst (FleetLsp.server_version e w') <> Ok (version_of rel).

(** The failure signal of [install_or_update], read literally: when the
    download fails, that is, when [download_binary] ends in its [except]
    clause, [install_or_update] run in the same world raises. *)
Definition failed_download_is_signalled (e : env) (w : world) : Prop :=
  forall r w' name x,
    download_binary e w = (r, w') ->
    printed w' = printed w ++ [MsgDownloading name; MsgDownloadFailed x] ->
    exists y, fst (FleetLsp.install_or_update e w) = Raise y.

(** The host [linux_host] on a disk that fills up while the version file is
    written: three characters get through. *)
Definition linux_host_torn_marker : env :=
  {| platform_system := "Linux";
     platform_machine := "x86_64";
     cache_path := "/cache";
     home := "/home/user";
     setting_binary_path := None;
     which := None;
     listing := Some [release_without_binary; release_231];
     http_get := fun _ => HttpBody "archive-bytes";
     untar := fun _ => Some good_archive;
     io_archive := IoOk;
     io_extract := IoOk;
     chmod_fails := false;
     unlink_fails := false;
     io_marker := IoTorn 3;
     run_version := prints_contents |}.

(** A release tagged with two v's.  One asset is named after the tag less
    its first v, the other after the tag less both. *)
Definition release_vv : release :=
  mk_release "vv2.3.1"
    (Some [mk_asset "fleet-schema-gen-v2.3.1-linux-x64.tar.gz"
                    "https://example.test/one-v";
           mk_asset "fleet-schema-gen-2.3.1-linux-x64.tar.gz"
                    "https://example.test/no-v"]).

(** A Linux host that publishes [release_vv] alone. *)
Definition linux_host_vv : env :=
  {| platform_system := "Linux";
     platform_machine := "x86_64";
     cache_path := "/cache";
     home := "/home/user";
     setting_binary_path := None;
     which := None;
     listing := Some [release_vv];
     http_get := fun _ => HttpBody "archive-bytes";
     untar := fun _ => Some good_archive;
     io_archive := IoOk;
     io_extract := IoOk;
     chmod_fails := false;
     unlink_fails := false;
     io_marker := IoOk;
     run_version := prints_contents |}.

(** A line of [download_binary] that carries an archive name carries
    [archive], and one that carries a version carries [version]. *)
Definition names_version (m : msg) (archive version : string) : Prop :=
  match m with
  | MsgNoAsset name | MsgDownloading name => name = archive
  | MsgInstalled v => v = version
  | _ => True
  end.

(** * Properties *)

(** ** Strings *)

Lemma startswith_spec (s p : string) :
  Py.startswith s p = true <-> exists r, s = p +:+ r.
Proof.
  revert s. induction p as [|a p IH]; intros s.
  - split; [intros _; exists s; reflexivity | intros _; destruct s; reflexivity].
  - destruct s as [|b s]; simpl.
    + split; [discriminate | intros [r Hr]; discriminate].
    + rewrite andb_true_iff, Ascii.eqb_eq, IH. split.
      * intros [-> [r ->]]. exists r. reflexivity.
      * intros [r Hr]. injection Hr as -> ->. split; [reflexivity | eauto].
Qed.

Lemma endswith_spec (s p : string) :
  Py.endswith s p = true <-> exists q, s = q +:+ p.
Proof.
  induction s as [|c s IH]; cbn [Py.endswith].
  - rewrite orb_false_r, String.eqb_eq. split.
    + intros <-. exists EmptyString. reflexivity.
    + intros [q Hq]. destruct q; simpl in Hq; [assumption | discriminate].
  - rewrite orb_true_iff, String.eqb_eq, IH. split.
    + intros [<- | [q ->]].
      * exists EmptyString. reflexivity.
      * exists (String c q). reflexivity.
    + intros [q Hq]. destruct q as [|d q]; simpl in Hq.
      * left. assumption.
      * right. injection Hq as _ ->. eauto.
Qed.

Lemma append_cons (c : ascii) (a b : string) :
  String c a +:+ b = String c (a +:+ b).
Proof. reflexivity. Qed.

Lemma append_cancel_l (p a b : string) : p +:+ a = p +:+ b -> a = b.
Proof.
  induction p as [|c p IH]; intros H; [exact H|].
  rewrite !append_cons in H. injection H as H. auto.
Qed.

Lemma append_assoc (a b c : string) : (a +:+ b) +:+ c = a +:+ (b +:+ c).
Proof.
  induction a as [|x a IH]; [reflexivity|].
  rewrite !append_cons. f_equal. exact IH.
Qed.

Lemma append_empty_r (a : string) : a +:+ EmptyString = a.
Proof.
  induction a as [|x a IH]; [reflexivity|].
  rewrite append_cons. f_equal. exact IH.
Qed.

(** ** Platform tag *)

Lemma one_of_spec (m a b : string) : one_of m a b = true <-> m = a \/ m = b.
Proof. unfold one_of. now rewrite orb_true_iff, !String.eqb_eq. Qed.

Lemma one_of_false (m a b : string) :
  one_of m a b = false <-> m <> a /\ m <> b.
Proof. unfold one_of. now rewrite orb_false_iff, !String.eqb_neq. Qed.

(** C8.  [get_platform_suffix] returns a tag exactly when the lower-cased
    (OS name, machine) pair is on a row of the mapping table, and then the
    tag of that row; on every pair that is on no row it returns [None]. *)
Theorem get_platform_suffix_table (sys mach : string) :
  let s := Py.lower sys in
  let m := Py.lower mach in
  (forall tag, get_platform_suffix_of sys mach = Some tag <-> platform_row s m tag)
  /\ (get_platform_suffix_of sys mach = None <-> forall tag, ~ platform_row s m tag).
Proof.
  intros s m. unfold get_platform_suffix_of. fold s. fold m.
  assert (Hrow : forall o,
    (if String.eqb s "darwin" then
       if one_of m "arm64" "aarch64" then Some "darwin-arm64"
       else if one_of m "x86_64" "amd64" then Some "darwin-x64" else None
     else if String.eqb s "linux" then
       if one_of m "x86_64" "amd64" then Some "linux-x64"
       else if one_of m "aarch64" "arm64" then Some "linux-arm64" else None
     else if String.eqb s "windows" then Some "windows-x64" else None) = o ->
    (forall tag, o = Some tag <-> platform_row s m tag)).
  { intros o Ho tag. unfold platform_row.
    destruct (String.eqb s "darwin") eqn:Hd.
    - apply String.eqb_eq in Hd.
      destruct (one_of m "arm64" "aarch64") eqn:H1.
      + apply one_of_spec in H1. subst o. split.
        * intros [= <-]. left. auto.
        * intros [(_ & _ & ->) | [(_ & [E|E] & _) | [(E & _) | [(E & _) | (E & _)]]]];
            try reflexivity; try (rewrite Hd in E; discriminate);
            destruct H1 as [H1|H1]; rewrite H1 in E; discriminate.
      + apply one_of_false in H1. destruct H1 as [Ha Hb].
        destruct (one_of m "x86_64" "amd64") eqn:H2.
        * apply one_of_spec in H2. subst o. split.
          -- intros [= <-]. right. left. auto.
          -- intros [(_ & [E|E] & _) | [(_ & _ & ->) | [(E & _) | [(E & _) | (E & _)]]]];
               try reflexivity; try (rewrite Hd in E; discriminate); contradiction.
        * apply one_of_false in H2. destruct H2 as [Hc He]. subst o. split.
          -- discriminate.
          -- intros [(_ & [E|E] & _) | [(_ & [E|E] & _) | [(E & _) | [(E & _) | (E & _)]]]];
               try contradiction; rewrite Hd in E; discriminate.
    - apply String.eqb_neq in Hd.
      destruct (String.eqb s "linux") eqn:Hl.
      + apply String.eqb_eq in Hl.
        destruct (one_of m "x86_64" "amd64") eqn:H1.
        * apply one_of_spec in H1. subst o. split.
          -- intros [= <-]. right. right. left. auto.
          -- intros [(E & _) | [(E & _) | [(_ & _ & ->) | [(_ & [E|E] & _) | (E & _)]]]];
               try reflexivity; try contradiction;
               try (rewrite Hl in E; discriminate);
               destruct H1 as [H1|H1]; rewrite H1 in E; discriminate.
        * apply one_of_false in H1. destruct H1 as [Ha Hb].
          destruct (one_of m "aarch64" "arm64") eqn:H2.
          -- apply one_of_spec in H2. subst o. split.
             ++ intros [= <-]. right. right. right. left. auto.
             ++ intros [(E & _) | [(E & _) | [(_ & [E|E] & _) | [(_ & _ & ->) | (E & _)]]]];
                  try reflexivity; try contradiction;
                  rewrite Hl in E; discriminate.
          -- apply one_of_false in H2. destruct H2 as [Hc He]. subst o. split.
             ++ discriminate.
             ++ intros [(E & _) | [(E & _) | [(_ & [E|E] & _) | [(_ & [E|E] & _) | (E & _)]]]];
                  try contradiction; rewrite Hl in E; discriminate.
      + apply String.eqb_neq in Hl.
        destruct (String.eqb s "windows") eqn:Hw.
        * apply String.eqb_eq in Hw. subst o. split.
          -- intros [= <-]. right. right. right. right. auto.
          -- intros [(E & _) | [(E & _) | [(E & _) | [(E & _) | (_ & ->)]]]];
               try reflexivity; contradiction.
        * apply String.eqb_neq in Hw. subst o. split.
          -- discriminate.
          -- intros [(E & _) | [(E & _) | [(E & _) | [(E & _) | (E & _)]]]];
               contradiction. }
  split.
  - apply Hrow. reflexivity.
  - match goal with |- ?o = None <-> _ => specialize (Hrow o eq_refl); destruct o as [t|] end.
    + split; [discriminate|]. intros H. exfalso. apply (H t), Hrow. reflexivity.
    + split; [|reflexivity]. intros _ tag Ht. apply Hrow in Ht. discriminate.
Qed.

(** ** Release catalogue *)

Lemma has_binary_asset_spec (l : list asset) :
  has_binary_asset l = true <->
  exists a rest, In a l /\ asset_name a = BINARY_NAME +:+ rest.
Proof.
  induction l as [|a l IH]; simpl.
  - split; [discriminate | intros (a & rest & [] & _)].
  - destruct (Py.startswith (asset_name a) BINARY_NAME) eqn:Hs.
    + split; [intros _ | reflexivity].
      apply startswith_spec in Hs as [rest Hrest]. exists a, rest. auto.
    + rewrite IH. split.
      * intros (b & rest & Hin & Hb). exists b, rest. auto.
      * intros (b & rest & [<- | Hin] & Hb); [|eauto].
        assert (Py.startswith (asset_name a) BINARY_NAME = true) as Ht
          by (apply startswith_spec; eauto).
        rewrite Ht in Hs. discriminate.
Qed.

Lemma ships_binary_iff (r : release) :
  ships_binary r <-> has_binary_asset (assets_of r) = true.
Proof. unfold ships_binary. symmetry. apply has_binary_asset_spec. Qed.

Lemma first_release_some (releases : list release) (r : release) :
  first_release_with_asset releases = Some r <->
  exists newer older,
    releases = newer ++ r :: older /\ ships_binary r /\
    Forall (fun r' => ~ ships_binary r') newer.
Proof.
  induction releases as [|x rs IH]; simpl.
  - split; [discriminate|]. intros (newer & older & H & _).
    destruct newer; discriminate.
  - destruct (has_binary_asset (assets_of x)) eqn:Hx.
    + split.
      * intros [= <-]. exists [], rs. rewrite ships_binary_iff. auto.
      * intros (newer & older & H & Hr & Hnew). destruct newer as [|y newer].
        -- injection H as -> _. reflexivity.
        -- injection H as -> _. apply Forall_inv in Hnew.
           rewrite ships_binary_iff in Hnew. contradiction.
    + rewrite IH. split.
      * intros (newer & older & -> & Hr & Hnew). exists (x :: newer), older.
        repeat split; [assumption|]. constructor; [|assumption].
        rewrite ships_binary_iff, Hx. discriminate.
      * intros (newer & older & H & Hr & Hnew). destruct newer as [|y newer].
        -- injection H as -> _. rewrite ships_binary_iff, Hx in Hr. discriminate.
        -- injection H as -> ->. apply Forall_inv_tail in Hnew. eauto.
Qed.

Lemma first_release_none (releases : list release) :
  first_release_with_asset releases = None <->
  Forall (fun r => ~ ships_binary r) releases.
Proof.
  induction releases as [|x rs IH]; simpl.
  - split; [constructor | reflexivity].
  - destruct (has_binary_asset (assets_of x)) eqn:Hx.
    + split; [discriminate|]. intros H. apply Forall_inv in H.
      rewrite ships_binary_iff in H. contradiction.
    + rewrite IH. split.
      * intros H. constructor; [|assumption].
        rewrite ships_binary_iff, Hx. discriminate.
      * apply Forall_inv_tail.
Qed.

(** What one listing fetch does to the world. *)
Lemma get_latest_release_info_run (e : env) (w : world) :
  get_latest_release_info e w =
  match listing e with
  | Some releases =>
      (Ok (first_release_with_asset releases),
       mk_world (files w) (requests w ++ [RELEASES_URL]) (printed w))
  | None =>
      (Ok None,
       mk_world (files w) (requests w ++ [RELEASES_URL])
                (printed w ++ [MsgFetchFailed FetchError]))
  end.
Proof.
  unfold get_latest_release_info, try_except, fetch_releases, bind, send_request.
  destruct (listing e); reflexivity.
Qed.

(** C5.  When the listing endpoint answers with a list of releases,
    [get_latest_release_info] returns the first release, in the order
    received, one of whose assets has a name starting with
    [fleet-schema-gen]; it returns nothing exactly when no release has such
    an asset.  In particular, when the newest release R1 has no such asset
    and the next one R2 has, the answer is R2. *)
Theorem get_latest_release_info_first_with_asset
    (e : env) (w : world) (releases : list release) :
  listing e = Some releases ->
  exists res w',
    get_latest_release_info e w = (Ok res, w') /\
    (forall r, res = Some r <->
       exists newer older,
         releases = newer ++ r :: older /\ ships_binary r /\
         Forall (fun r' => ~ ships_binary r') newer) /\
    (res = None <-> Forall (fun r => ~ ships_binary r) releases) /\
    (forall R1 R2 older,
       releases = R1 :: R2 :: older ->
       ~ ships_binary R1 -> ships_binary R2 -> res = Some R2).
Proof.
  intros Hl. rewrite get_latest_release_info_run, Hl.
  eexists _, _. split; [reflexivity|]. split; [|split].
  - intros r. apply first_release_some.
  - apply first_release_none.
  - intros R1 R2 older -> H1 H2. apply first_release_some.
    exists [R1], older. repeat split; [assumption|]. constructor; auto.
Qed.

(** ** Paths in the storage directory *)

Lemma path_join_relative (a b : string) :
  Py.startswith b "/" = false -> Py.path_join a b = dir_prefix a +:+ b.
Proof.
  intros Hb. unfold Py.path_join, dir_prefix. rewrite Hb.
  destruct a as [|c a]; [reflexivity|].
  destruct (Py.endswith (String c a) "/"); [reflexivity|].
  now rewrite append_assoc.
Qed.

Lemma path_join_inj (a b c : string) :
  Py.startswith b "/" = false -> Py.startswith c "/" = false ->
  Py.path_join a b = Py.path_join a c -> b = c.
Proof.
  intros Hb Hc. rewrite !path_join_relative by assumption.
  apply append_cancel_l.
Qed.

Lemma append_nonempty_r (a b : string) : b <> EmptyString -> a +:+ b <> EmptyString.
Proof. destruct a, b; intros H; try discriminate; congruence. Qed.

Lemma path_join_nonempty (a b : string) :
  Py.startswith b "/" = false -> b <> EmptyString -> Py.path_join a b <> EmptyString.
Proof.
  intros Hb Hne. rewrite path_join_relative by assumption.
  now apply append_nonempty_r.
Qed.

Lemma lookup_file_nonempty (fs : gmap string file) (p : string) :
  p <> EmptyString -> lookup_file fs p = fs !! p.
Proof. destruct p; [congruence | reflexivity]. Qed.

Lemma binary_file_nonempty (e : env) : binary_file e <> EmptyString.
Proof. apply path_join_nonempty; [reflexivity | discriminate]. Qed.

Lemma version_file_nonempty (e : env) : version_file e <> EmptyString.
Proof. apply path_join_nonempty; [reflexivity | discriminate]. Qed.

Lemma archive_file_nonempty (e : env) (r : release) (sfx : string) :
  archive_file e r sfx <> EmptyString.
Proof. apply path_join_nonempty; [reflexivity | discriminate]. Qed.

Lemma binary_version_distinct (e : env) : binary_file e <> version_file e.
Proof.
  intros H. apply path_join_inj in H; [discriminate | reflexivity | reflexivity].
Qed.

Lemma archive_binary_distinct (e : env) (r : release) (sfx : string) :
  archive_file e r sfx <> binary_file e.
Proof.
  intros H. apply path_join_inj in H; [|reflexivity|reflexivity].
  unfold archive_name in H. rewrite <- (append_empty_r BINARY_NAME) in H at 2.
  apply append_cancel_l in H. discriminate.
Qed.

Lemma archive_version_distinct (e : env) (r : release) (sfx : string) :
  archive_file e r sfx <> version_file e.
Proof.
  intros H. apply path_join_inj in H; [discriminate | reflexivity | reflexivity].
Qed.

(** ** What each step touches *)

Ltac unfold_m :=
  unfold bind, ret, raise, try_except, get_files, set_files, print,
    send_request in *.

Lemma touches_only_refl (p : string) (w : world) : touches_only p w w.
Proof. split; [intros; reflexivity | reflexivity]. Qed.

Lemma touches_only_trans (p : string) (w1 w2 w3 : world) :
  touches_only p w1 w2 -> touches_only p w2 w3 -> touches_only p w1 w3.
Proof.
  intros [H1 P1] [H2 P2]. split.
  - intros q Hq. rewrite H2, H1 by assumption. reflexivity.
  - congruence.
Qed.

Lemma bind_inv {A B} (c : M A) (k : A -> M B) (w w' : world) (r : result B) :
  bind c k w = (r, w') ->
  (exists x, c w = (Raise x, w') /\ r = Raise x) \/
  (exists a w1, c w = (Ok a, w1) /\ k a w1 = (r, w')).
Proof.
  unfold bind. destruct (c w) as [[a|x] w1]; intros H.
  - right. eauto.
  - left. injection H as <- <-. eauto.
Qed.

Lemma set_contents_run (p data : string) (w : world) :
  exists mode,
    set_contents p data w =
    (Ok tt, mk_world (<[p := mk_file mode data]> (files w)) (requests w) (printed w)).
Proof. unfold set_contents. unfold_m. eexists. reflexivity. Qed.

Lemma set_contents_touches (p data : string) (w w' : world) (r : result unit) :
  set_contents p data w = (r, w') ->
  r = Ok tt /\ touches_only p w w' /\
  exists mode, files w' !! p = Some (mk_file mode data).
Proof.
  destruct (set_contents_run p data w) as [mode ->]. intros [= <- <-].
  split; [reflexivity|]. split.
  - split; [|reflexivity]. intros q Hq. simpl. now apply lookup_insert_ne.
  - exists mode. simpl. apply lookup_insert_eq.
Qed.

Lemma open_truncate_touches (io : io_outcome) (x : exn) (p : string)
    (w w' : world) (r : result unit) :
  open_truncate io x p w = (r, w') ->
  touches_only p w w' /\
  (r = Raise x /\ io = IoRefused /\ w' = w \/
   r = Ok tt /\ io <> IoRefused /\ is_Some (files w' !! p)).
Proof.
  unfold open_truncate. destruct io; intros H;
    try (apply set_contents_touches in H as (-> & Ht & mode & Hm);
         split; [assumption|]; right; rewrite Hm; repeat split; eauto; discriminate).
  unfold raise in H. injection H as <- <-.
  split; [apply touches_only_refl | left; auto].
Qed.

Lemma write_all_touches (io : io_outcome) (x : exn) (p data : string)
    (w w' : world) (r : result unit) :
  write_all io x p data w = (r, w') ->
  touches_only p w w' /\ is_Some (files w' !! p) /\
  (r = Raise x /\ (exists n, io = IoTorn n) \/
   r = Ok tt /\ (forall n, io <> IoTorn n) /\
   exists mode, files w' !! p = Some (mk_file mode data)).
Proof.
  unfold write_all. destruct io; intros H.
  - apply set_contents_touches in H as (-> & Ht & mode & Hm).
    split; [exact Ht|]. split; [eauto|]. right.
    split; [reflexivity|]. split; [discriminate | eauto].
  - apply set_contents_touches in H as (-> & Ht & mode & Hm).
    split; [exact Ht|]. split; [eauto|]. right.
    split; [reflexivity|]. split; [discriminate | eauto].
  - apply bind_inv in H as [(x' & H & ->) | (a & w1 & H & Hk)].
    + apply set_contents_touches in H as (H & _). discriminate.
    + apply set_contents_touches in H as (_ & Ht & mode & Hm).
      unfold raise in Hk. injection Hk as <- <-.
      split; [exact Ht|]. split; [eauto|]. left. eauto.
Qed.

Lemma download_archive_touches (e : env) (url p : string)
    (w w' : world) (r : result unit) :
  download_archive e url p w = (r, w') ->
  touches_only p w w' /\
  (forall x, r = Raise x ->
     x = URLError \/ x = ArchiveOpenError \/ x = IncompleteRead \/
     x = ArchiveWriteError).
Proof.
  unfold download_archive. intros H.
  apply bind_inv in H as [(x & H & ->) | ([] & w1 & H & Hk)];
    [discriminate H|].
  assert (Hw1 : touches_only p w w1).
  { unfold send_request in H. injection H as <-.
    split; [intros; reflexivity | reflexivity]. }
  assert (Hrest : forall resp,
    (open_truncate (io_archive e) ArchiveOpenError p;;;
     body <- match resp with HttpBody body => ret body | _ => raise IncompleteRead end;;
     write_all (io_archive e) ArchiveWriteError p body) w1 = (r, w') ->
    touches_only p w w' /\
    (forall x, r = Raise x ->
       x = URLError \/ x = ArchiveOpenError \/ x = IncompleteRead \/
       x = ArchiveWriteError)).
  { clear Hk. intros resp Hk.
    apply bind_inv in Hk as [(x & Ho & ->) | ([] & w2 & Ho & Hk)].
    - apply open_truncate_touches in Ho as (Ht & [(Hx & _) | (Hx & _)]);
        [|discriminate Hx].
      split; [eapply touches_only_trans; eassumption|].
      intros y [= <-]. injection Hx as ->. auto.
    - apply open_truncate_touches in Ho as (Ht & _).
      pose proof (touches_only_trans _ _ _ _ Hw1 Ht) as Hw2.
      apply bind_inv in Hk as [(x & Hb & ->) | (body & w3 & Hb & Hk)].
      + destruct resp; unfold ret, raise in Hb; simplify_eq;
          (split; [assumption | intros y [= <-]; auto]).
      + assert (w3 = w2) as ->
          by (destruct resp; unfold ret, raise in Hb; congruence).
        apply write_all_touches in Hk as (Ht3 & _ & [(-> & _) | (-> & _)]).
        * split; [eapply touches_only_trans; eassumption|].
          intros y [= <-]. auto.
        * split; [eapply touches_only_trans; eassumption|]. discriminate. }
  destruct (http_get e url) eqn:Hh.
  - unfold raise in Hk. injection Hk as <- <-.
    split; [assumption | intros y [= <-]; auto].
  - apply (Hrest HttpBroken Hk).
  - apply (Hrest (HttpBody body) Hk).
Qed.

Lemma tar_extract_touches (e : env) (m : tar_member) (sp : string)
    (w w' : world) (r : result unit) :
  tar_extract e m sp w = (r, w') ->
  touches_only (Py.path_join sp BINARY_NAME) w w' /\
  (w' = w \/ is_Some (files w' !! Py.path_join sp BINARY_NAME)) /\
  (forall x, r = Raise x -> x = ExtractError).
Proof.
  unfold tar_extract. set (target := Py.path_join sp BINARY_NAME). intros H.
  apply bind_inv in H as [(x & Ho & ->) | ([] & w1 & Ho & Hk)].
  - apply open_truncate_touches in Ho as (Ht & [(Hx & _ & ->) | (Hx & _)]);
      [|discriminate Hx].
    split; [assumption|]. split; [auto|]. intros y [= <-]. congruence.
  - apply open_truncate_touches in Ho as (Ht & _).
    apply bind_inv in Hk as [(x & Hw & ->) | ([] & w2 & Hw & Hk)].
    + apply write_all_touches in Hw as (Ht2 & Hs & [(Hx & _) | (Hx & _)]);
        [|discriminate Hx].
      split; [eapply touches_only_trans; eassumption|]. split; [auto|].
      intros y [= <-]. congruence.
    + apply write_all_touches in Hw as (Ht2 & _).
      unfold_m. injection Hk as <- <-.
      split; [|split; [|discriminate]].
      * eapply touches_only_trans; [eassumption|].
        eapply touches_only_trans; [eassumption|].
        split; [|reflexivity]. intros q Hq. simpl. now apply lookup_insert_ne.
      * right. simpl. rewrite lookup_insert_eq. eauto.
Qed.

Lemma extract_binary_touches (e : env) (ap sp : string)
    (w w' : world) (r : result unit) :
  extract_binary e ap sp w = (r, w') ->
  touches_only (Py.path_join sp BINARY_NAME) w w' /\
  (w' = w \/ is_Some (files w' !! Py.path_join sp BINARY_NAME)) /\
  (forall x, r = Raise x ->
     x = ExtractError \/ (x = FileNotFoundError \/ x = TarReadError) /\ w' = w).
Proof.
  unfold extract_binary. intros H.
  apply bind_inv in H as [(x & Hr & ->) | (data & w1 & Hr & Hk)].
  - unfold read_file in Hr. unfold_m.
    destruct (lookup_file (files w) ap); simplify_eq.
    split; [apply touches_only_refl|]. split; [auto|].
    intros y [= <-]. auto.
  - assert (w1 = w) as ->.
    { unfold read_file in Hr. unfold_m.
      destruct (lookup_file (files w) ap); congruence. }
    destruct (untar e data) as [members|].
    + destruct (find_member members) as [m|].
      * apply tar_extract_touches in Hk as (Ht & Hs & Hx).
        split; [assumption|]. split; [assumption|].
        intros y Hy. left. now apply Hx.
      * unfold ret in Hk. injection Hk as <- <-.
        split; [apply touches_only_refl|]. split; [auto | discriminate].
    + unfold raise in Hk. injection Hk as <- <-.
      split; [apply touches_only_refl|]. split; [auto|].
      intros y [= <-]. auto.
Qed.

Lemma make_executable_touches (e : env) (bp : string)
    (w w' : world) (r : result unit) :
  make_executable e bp w = (r, w') ->
  touches_only bp w w' /\
  (r = Ok tt -> is_Some (files w' !! bp)) /\
  (forall x, r = Raise x ->
     w' = w /\ (x = FileNotFoundError \/ x = ChmodError)).
Proof.
  unfold make_executable. unfold_m.
  destruct (lookup_file (files w) bp) as [f|].
  - destruct (chmod_fails e); intros [= <- <-].
    + split; [apply touches_only_refl|]. split; [discriminate|].
      intros y [= <-]. auto.
    + split; [|split; [|discriminate]].
      * split; [|reflexivity]. intros q Hq. simpl. now apply lookup_insert_ne.
      * intros _. simpl. rewrite lookup_insert_eq. eauto.
  - intros [= <- <-].
    split; [apply touches_only_refl|]. split; [discriminate|].
    intros y [= <-]. auto.
Qed.

Lemma unlink_touches (e : env) (p : string) (w w' : world) (r : result unit) :
  unlink e p w = (r, w') ->
  touches_only p w w' /\
  (forall x, r = Raise x -> x = FileNotFoundError \/ x = UnlinkError).
Proof.
  unfold unlink. unfold_m.
  destruct (lookup_file (files w) p) as [f|].
  - destruct (unlink_fails e); intros [= <- <-].
    + split; [apply touches_only_refl|]. intros y [= <-]. auto.
    + split; [|discriminate].
      split; [|reflexivity]. intros q Hq. simpl. now apply lookup_delete_ne.
  - intros [= <- <-].
    split; [apply touches_only_refl|]. intros y [= <-]. auto.
Qed.

Lemma write_text_touches (e : env) (p data : string)
    (w w' : world) (r : result unit) :
  write_text e p data w = (r, w') ->
  touches_only p w w' /\
  (r = Raise MarkerOpenError /\ w' = w \/
   r = Raise MarkerWriteError \/
   r = Ok tt /\ exists mode, files w' !! p = Some (mk_file mode data)).
Proof.
  unfold write_text. intros H.
  apply bind_inv in H as [(x & Ho & ->) | ([] & w1 & Ho & Hk)].
  - apply open_truncate_touches in Ho as (Ht & [(Hx & _ & ->) | (Hx & _)]);
      [|discriminate Hx].
    injection Hx as ->. split; [assumption | auto].
  - apply open_truncate_touches in Ho as (Ht & _).
    apply write_all_touches in Hk as (Ht2 & _ & [(-> & _) | (-> & _ & Hm)]).
    + split; [eapply touches_only_trans; eassumption | auto].
    + split; [eapply touches_only_trans; eassumption | auto].
Qed.

(** A version file whose writing was cut short holds the first [n]
    characters of the new text, [n] being where the host cut it. *)
Lemma write_text_torn (e : env) (p data : string) (w w' : world) :
  write_text e p data w = (Raise MarkerWriteError, w') ->
  exists n mode,
    io_marker e = IoTorn n /\
    files w' !! p = Some (mk_file mode (String.substring 0 n data)).
Proof.
  unfold write_text, open_truncate, write_all, set_contents.
  destruct (io_marker e) as [| |n]; unfold_m; cbn [files requests printed];
    try discriminate.
  intros [= <-]. cbn [files]. eexists n, _. split; [reflexivity|].
  apply lookup_insert_eq.
Qed.

(** ** The [try] block of [download_binary] *)

Lemma install_steps_cases (e : env) (r : release) (sfx url : string)
    (w w' : world) (res : result (option string)) :
  install_steps e (storage_dir e) (binary_file e) (version_file e)
                (archive_name r sfx) url (version_of r) w = (res, w') ->
  (is_Some (files w !! binary_file e) -> is_Some (files w' !! binary_file e)) /\
  ((res = Ok (Some (binary_file e)) /\
    printed w' = printed w ++ [MsgInstalled (version_of r)] /\
    is_Some (files w' !! binary_file e) /\
    exists mode, files w' !! version_file e = Some (mk_file mode (version_of r)))
   \/
   (exists x, res = Raise x /\ printed w' = printed w /\
      (x <> MarkerWriteError ->
       files w' !! version_file e = files w !! version_file e) /\
      (download_failure x = true ->
       files w' !! binary_file e = files w !! binary_file e))).
Proof.
  unfold install_steps.
  change (Py.path_join (storage_dir e) (archive_name r sfx))
    with (archive_file e r sfx).
  pose proof (archive_binary_distinct e r sfx) as Hab.
  pose proof (archive_version_distinct e r sfx) as Hav.
  pose proof (binary_version_distinct e) as Hbv.
  intros H.
  (* download *)
  apply bind_inv in H as [(x & H1 & ->) | ([] & w1 & H1 & H)].
  { apply download_archive_touches in H1 as ([Hf Hp] & _).
    split; [rewrite Hf by congruence; auto|].
    right. exists x. repeat split; auto; intros _; apply Hf; congruence. }
  apply download_archive_touches in H1 as ([Hf1 Hp1] & _).
  assert (B1 : files w1 !! binary_file e = files w !! binary_file e) by (apply Hf1; congruence).
  assert (V1 : files w1 !! version_file e = files w !! version_file e)
    by (apply Hf1; congruence).
  (* extract *)
  apply bind_inv in H as [(x & H2 & ->) | ([] & w2 & H2 & H)].
  { apply extract_binary_touches in H2;
      change (Py.path_join (storage_dir e) BINARY_NAME) with (binary_file e) in H2;
      destruct H2 as ([Hf Hp] & Hs & Hx).
    split; [intros Hb; destruct Hs as [-> | Hs]; [rewrite B1|]; auto|].
    right. exists x. split; [reflexivity|]. split; [congruence|]. split.
    - intros _. rewrite Hf by congruence. exact V1.
    - intros Hd. destruct (Hx x eq_refl) as [-> | [_ ->]];
        [discriminate Hd | exact B1]. }
  apply extract_binary_touches in H2;
      change (Py.path_join (storage_dir e) BINARY_NAME) with (binary_file e) in H2;
      destruct H2 as ([Hf2 Hp2] & Hs2 & _).
  assert (K2 : is_Some (files w !! binary_file e) -> is_Some (files w2 !! binary_file e))
    by (intros Hb; destruct Hs2 as [-> | Hs2]; [rewrite B1|]; auto).
  assert (V2 : files w2 !! version_file e = files w !! version_file e)
    by (rewrite Hf2 by congruence; exact V1).
  (* chmod *)
  apply bind_inv in H as [(x & H3 & ->) | ([] & w3 & H3 & H)].
  { apply make_executable_touches in H3 as (_ & _ & Hx).
    destruct (Hx x eq_refl) as [-> Hx'].
    split; [exact K2|].
    right. exists x. split; [reflexivity|]. split; [congruence|]. split.
    - intros _. exact V2.
    - intros Hd. destruct Hx' as [-> | ->]; discriminate Hd. }
  apply make_executable_touches in H3 as ([Hf3 Hp3] & S3 & _).
  specialize (S3 eq_refl).
  assert (V3 : files w3 !! version_file e = files w !! version_file e)
    by (rewrite Hf3 by congruence; exact V2).
  (* unlink *)
  apply bind_inv in H as [(x & H4 & ->) | ([] & w4 & H4 & H)].
  { apply unlink_touches in H4 as ([Hf Hp] & Hx).
    split; [intros _; rewrite Hf by congruence; exact S3|].
    right. exists x. split; [reflexivity|]. split; [congruence|]. split.
    - intros _. rewrite Hf by congruence. exact V3.
    - intros Hd. destruct (Hx x eq_refl) as [-> | ->]; discriminate Hd. }
  apply unlink_touches in H4 as ([Hf4 Hp4] & _).
  assert (S4 : is_Some (files w4 !! binary_file e)) by (rewrite Hf4 by congruence; exact S3).
  assert (V4 : files w4 !! version_file e = files w !! version_file e)
    by (rewrite Hf4 by congruence; exact V3).
  (* version file *)
  apply bind_inv in H as [(x & H5 & ->) | ([] & w5 & H5 & H)].
  { apply write_text_touches in H5 as ([Hf Hp] & Hx).
    split; [intros _; rewrite Hf by congruence; exact S4|].
    right. exists x. split; [reflexivity|]. split; [congruence|].
    destruct Hx as [(Hx & ->) | [Hx | (Hx & _)]]; [| |discriminate Hx];
      injection Hx as ->; (split; [|discriminate]); [auto | congruence]. }
  apply write_text_touches in H5 as ([Hf5 Hp5] & Hx).
  assert (S5 : is_Some (files w5 !! binary_file e)) by (rewrite Hf5 by congruence; exact S4).
  destruct Hx as [(Hx & _) | [Hx | (_ & mode & Hm)]]; try discriminate Hx.
  unfold_m. injection H as <- <-. simpl.
  split; [auto|]. left. split; [reflexivity|]. split; [congruence|].
  split; [exact S5 | eauto].
Qed.

(** A [try] block that ends with the exception of the write to the version
    file leaves there a prefix of the version it was writing. *)
Lemma install_steps_marker_torn (e : env) (rel : release) (sfx url : string)
    (w w' : world) :
  install_steps e (storage_dir e) (binary_file e) (version_file e)
                (archive_name rel sfx) url (version_of rel) w
    = (Raise MarkerWriteError, w') ->
  exists n mode,
    io_marker e = IoTorn n /\
    files w' !! version_file e =
      Some (mk_file mode (String.substring 0 n (version_of rel))).
Proof.
  unfold install_steps.
  change (Py.path_join (storage_dir e) (archive_name rel sfx))
    with (archive_file e rel sfx).
  intros H.
  apply bind_inv in H as [(y & H1 & Hy) | ([] & w1 & H1 & H)].
  { injection Hy as <-. apply download_archive_touches in H1 as (_ & Hp).
    destruct (Hp _ eq_refl) as [Hx | [Hx | [Hx | Hx]]]; discriminate Hx. }
  apply bind_inv in H as [(y & H2 & Hy) | ([] & w2 & H2 & H)].
  { injection Hy as <-. apply extract_binary_touches in H2 as (_ & _ & Hp).
    destruct (Hp _ eq_refl) as [Hx | [[Hx | Hx] _]]; discriminate Hx. }
  apply bind_inv in H as [(y & H3 & Hy) | ([] & w3 & H3 & H)].
  { injection Hy as <-. apply make_executable_touches in H3 as (_ & _ & Hp).
    destruct (Hp _ eq_refl) as [_ [Hx | Hx]]; discriminate Hx. }
  apply bind_inv in H as [(y & H4 & Hy) | ([] & w4 & H4 & H)].
  { injection Hy as <-. apply unlink_touches in H4 as (_ & Hp).
    destruct (Hp _ eq_refl) as [Hx | Hx]; discriminate Hx. }
  apply bind_inv in H as [(y & H5 & Hy) | ([] & w5 & H5 & H)].
  { injection Hy as <-. eapply write_text_torn. exact H5. }
  unfold_m. discriminate H.
Qed.

(** ** [download_binary] *)

Lemma platform_suffix_nonempty (sys mach tag : string) :
  get_platform_suffix_of sys mach = Some tag -> tag <> EmptyString.
Proof.
  unfold get_platform_suffix_of.
  repeat match goal with
         | |- context [if ?b then _ else _] => destruct b
         end; intros [= <-]; discriminate.
Qed.

Lemma already_installed_run (bp vf v : string) (w : world) :
  already_installed bp vf v w = (Ok (is_current (files w) bp vf v), w).
Proof.
  unfold already_installed, is_current, path_exists, read_file. unfold_m.
  destruct (lookup_file (files w) bp) as [fb|] eqn:Hb.
  - rewrite bool_decide_eq_true_2 by eauto.
    destruct (lookup_file (files w) vf) as [fv|] eqn:Hv.
    + rewrite bool_decide_eq_true_2 by eauto. rewrite Hv. reflexivity.
    + rewrite bool_decide_eq_false_2 by (intros [? ?]; discriminate).
      reflexivity.
  - rewrite bool_decide_eq_false_2 by (intros [? ?]; discriminate).
    reflexivity.
Qed.

(** [download_binary] on an unsupported platform. *)
Lemma download_binary_unsupported (e : env) (w : world) :
  get_platform_suffix e = None ->
  download_binary e w =
  (Ok None,
   mk_world (files w) (requests w)
     (printed w ++ [MsgUnsupported (platform_system e) (platform_machine e)])).
Proof. intros H. unfold download_binary. rewrite H. reflexivity. Qed.

(** [download_binary] when the listing cannot be fetched or names no
    release that ships the binary. *)
Lemma download_binary_no_release (e : env) (w : world) (sfx : string) :
  get_platform_suffix e = Some sfx ->
  match listing e with
  | Some rs => first_release_with_asset rs = None
  | None => True
  end ->
  exists w1,
    files w1 = files w /\
    (exists ms, printed w1 = printed w ++ ms /\
                forall n rest, ms <> MsgDownloading n :: rest) /\
    download_binary e w =
    if isfile (files w) (binary_file e)
    then (Ok (Some (binary_file e)), w1)
    else (Ok None,
          mk_world (files w1) (requests w1) (printed w1 ++ [MsgNoReleaseInfo])).
Proof.
  intros Hs Hl. pose proof (platform_suffix_nonempty _ _ _ Hs) as Hne.
  unfold download_binary. rewrite Hs. destruct sfx as [|c sfx]; [congruence|].
  cbv beta iota zeta delta [bind ret print get_storage_path path_exists get_files].
  rewrite get_latest_release_info_run.
  change (Py.path_join (Py.path_join (cache_path e) "Package Storage") PACKAGE_NAME)
    with (storage_dir e).
  change (Py.path_join (storage_dir e) BINARY_NAME) with (binary_file e).
  destruct (listing e) as [rs|]; [rewrite Hl|]; cbn [files printed requests];
    eexists (mk_world _ _ _); (split; [reflexivity|]); (split;
      [|unfold isfile; destruct (bool_decide _); reflexivity]); cbn [printed].
  - exists []. split; [now rewrite app_nil_r | discriminate].
  - exists [MsgFetchFailed FetchError]. split; [reflexivity | discriminate].
Qed.

(** [download_binary] when the release found has no asset of the expected
    name with a non-empty URL. *)
Lemma download_binary_no_asset (e : env) (w : world) (sfx : string)
    (rs : list release) (rel : release) :
  get_platform_suffix e = Some sfx ->
  listing e = Some rs ->
  first_release_with_asset rs = Some rel ->
  Py.truthy (find_asset_url (archive_name rel sfx) (assets_of rel)) = false ->
  download_binary e w =
  (Ok None,
   mk_world (files w) (requests w ++ [RELEASES_URL])
            (printed w ++ [MsgNoAsset (archive_name rel sfx)])).
Proof.
  intros Hs Hl Hr Ha. pose proof (platform_suffix_nonempty _ _ _ Hs) as Hne.
  unfold download_binary. rewrite Hs. destruct sfx as [|c sfx]; [congruence|].
  cbv beta iota zeta delta [bind ret print get_storage_path].
  rewrite get_latest_release_info_run, Hl, Hr.
  change (BINARY_NAME +:+ "-" +:+ Py.lstrip "v" (tag_name rel) +:+ "-" +:+
          String c sfx +:+ ".tar.gz") with (archive_name rel (String c sfx)).
  destruct (find_asset_url _ _) as [[|c' url]|]; [reflexivity | discriminate Ha | reflexivity].
Qed.

(** [download_binary] once the asset is found: either the installation is
    current, or the [try] block runs and its exception, if any, is handled
    by [fallback]. *)
Lemma download_binary_found (e : env) (w : world) (sfx : string)
    (rs : list release) (rel : release) (url : string) :
  get_platform_suffix e = Some sfx ->
  listing e = Some rs ->
  first_release_with_asset rs = Some rel ->
  find_asset_url (archive_name rel sfx) (assets_of rel) = Some url ->
  url <> EmptyString ->
  download_binary e w =
  if is_current (files w) (binary_file e) (version_file e) (version_of rel)
  then (Ok (Some (binary_file e)), listed w)
  else
    match install_steps e (storage_dir e) (binary_file e) (version_file e)
            (archive_name rel sfx) url (version_of rel)
            (downloading w (archive_name rel sfx)) with
    | (Ok o, w1) => (Ok o, w1)
    | (Raise x, w1) => fallback e x w1
    end.
Proof.
  intros Hs Hl Hr Ha Hu. pose proof (platform_suffix_nonempty _ _ _ Hs) as Hne.
  unfold download_binary. rewrite Hs. destruct sfx as [|c sfx]; [congruence|].
  cbv beta iota zeta delta [bind ret print get_storage_path try_except].
  rewrite get_latest_release_info_run, Hl, Hr.
  change (BINARY_NAME +:+ "-" +:+ Py.lstrip "v" (tag_name rel) +:+ "-" +:+
          String c sfx +:+ ".tar.gz") with (archive_name rel (String c sfx)).
  rewrite Ha. destruct url as [|c' url]; [congruence|].
  rewrite already_installed_run. cbn [files requests printed].
  change (Py.path_join (Py.path_join (cache_path e) "Package Storage") PACKAGE_NAME)
    with (storage_dir e).
  change (Py.path_join (storage_dir e) BINARY_NAME) with (binary_file e).
  change (Py.path_join (storage_dir e) "version") with (version_file e).
  change (Py.lstrip "v" (tag_name rel)) with (version_of rel).
  destruct (is_current _ _ _ _); [reflexivity|].
  unfold downloading.
  destruct (install_steps _ _ _ _ _ _ _ _) as [[o|x] w1]; [reflexivity|].
  unfold fallback, path_exists, isfile. unfold_m. cbn [files requests printed].
  destruct (bool_decide _); reflexivity.
Qed.

Lemma is_current_true (fs : gmap string file) (bp vf v : string) :
  is_current fs bp vf v = true <->
  is_Some (lookup_file fs bp) /\
  exists f, lookup_file fs vf = Some f /\ Py.strip (contents f) = v.
Proof.
  unfold is_current.
  destruct (lookup_file fs bp) as [fb|]; [destruct (lookup_file fs vf) as [fv|]|].
  - rewrite String.eqb_eq. split.
    + intros H. split; eauto.
    + intros (_ & f & [= <-] & H). exact H.
  - split; [discriminate | intros (_ & f & H & _); discriminate H].
  - split; [discriminate | intros ([? H] & _); discriminate H].
Qed.

(** Every call of [download_binary] is of one of two kinds: it leaves the
    files alone and prints no download line, or it runs the [try] block and
    hands its exception, if any, to [fallback]. *)
Lemma download_binary_inv (e : env) (w : world) :
  (exists o w1,
     download_binary e w = (Ok o, w1) /\ files w1 = files w /\
     (o = None \/
      o = Some (binary_file e) /\ isfile (files w) (binary_file e) = true) /\
     exists ms, printed w1 = printed w ++ ms /\
                forall n rest, ms <> MsgDownloading n :: rest)
  \/
  (exists sfx rel url,
     latest_release e = Some rel /\
     is_current (files w) (binary_file e) (version_file e) (version_of rel)
       = false /\
     download_binary e w =
     match install_steps e (storage_dir e) (binary_file e) (version_file e)
             (archive_name rel sfx) url (version_of rel)
             (downloading w (archive_name rel sfx)) with
     | (Ok o, w1) => (Ok o, w1)
     | (Raise x, w1) => fallback e x w1
     end).
Proof.
  destruct (get_platform_suffix e) as [sfx|] eqn:Hs.
  2: { left. rewrite download_binary_unsupported by assumption.
       eexists _, _. split; [reflexivity|]. split; [reflexivity|].
       split; [auto|]. eexists. split; [reflexivity | discriminate]. }
  destruct (listing e) as [rs|] eqn:Hl.
  2: { left.
       destruct (download_binary_no_release e w sfx Hs) as (w1 & Hf & Hm & ->).
       { rewrite Hl. exact I. }
       destruct (isfile (files w) (binary_file e)) eqn:Hb.
       - eexists _, _. split; [reflexivity|]. split; [assumption|]. auto.
       - eexists _, _. split; [reflexivity|]. split; [assumption|].
         split; [auto|]. destruct Hm as (ms & Hm & Hms).
         exists (ms ++ [MsgNoReleaseInfo]). cbn [printed].
         split; [rewrite Hm; now rewrite <- app_assoc|].
         intros n rest. destruct ms as [|m ms]; [discriminate|].
         intros [= -> _]. eapply Hms. reflexivity. }
  destruct (first_release_with_asset rs) as [rel|] eqn:Hr.
  2: { left.
       destruct (download_binary_no_release e w sfx Hs) as (w1 & Hf & Hm & ->).
       { rewrite Hl. exact Hr. }
       destruct (isfile (files w) (binary_file e)) eqn:Hb.
       - eexists _, _. split; [reflexivity|]. split; [assumption|]. auto.
       - eexists _, _. split; [reflexivity|]. split; [assumption|].
         split; [auto|]. destruct Hm as (ms & Hm & Hms).
         exists (ms ++ [MsgNoReleaseInfo]). cbn [printed].
         split; [rewrite Hm; now rewrite <- app_assoc|].
         intros n rest. destruct ms as [|m ms]; [discriminate|].
         intros [= -> _]. eapply Hms. reflexivity. }
  destruct (Py.truthy (find_asset_url (archive_name rel sfx) (assets_of rel)))
    eqn:Ha.
  2: { left. rewrite (download_binary_no_asset e w sfx rs rel) by assumption.
       eexists _, _. split; [reflexivity|]. split; [reflexivity|].
       split; [auto|]. eexists. split; [reflexivity | discriminate]. }
  destruct (find_asset_url (archive_name rel sfx) (assets_of rel))
    as [url|] eqn:Hu; [|discriminate Ha].
  assert (url <> EmptyString) as Hne by (intros ->; discriminate Ha).
  rewrite (download_binary_found e w sfx rs rel url) by assumption.
  destruct (is_current _ _ _ _) eqn:Hc.
  - left. apply is_current_true in Hc as (Hb & _).
    eexists _, _. split; [reflexivity|]. split; [reflexivity|]. split.
    + right. split; [reflexivity|]. unfold isfile. now apply bool_decide_eq_true_2.
    + exists []. cbn [listed printed]. split; [now rewrite app_nil_r | discriminate].
  - right. exists sfx, rel, url.
    split; [unfold latest_release; now rewrite Hl|]. split; [exact Hc | reflexivity].
Qed.

(** With the storage directory created and the version file read without
    error, as [get_storage_path] and [read_file] have it, [download_binary]
    returns, and what it returns is nothing or the path of the binary in
    the storage directory. *)
Lemma download_binary_returns (e : env) (w : world) :
  exists o w', download_binary e w = (Ok o, w') /\
               (o = None \/ o = Some (binary_file e)).
Proof.
  destruct (download_binary_inv e w)
    as [(o & w1 & H & _ & Ho & _) | (sfx & rel & url & _ & _ & H)].
  - exists o, w1. split; [assumption|]. destruct Ho as [-> | [-> _]]; auto.
  - rewrite H.
    destruct (install_steps _ _ _ _ _ _ _ _) as [[o|x] w1] eqn:Hi.
    + apply install_steps_cases in Hi
        as (_ & [(Hres & _) | (y & Hres & _)]); [|discriminate Hres].
      injection Hres as ->. eauto.
    + unfold fallback. eexists _, _. split; [reflexivity|].
      destruct (isfile _ _); auto.
Qed.

(** C10.  On a platform for which no tag is resolved, [download_binary]
    returns nothing without raising, sends no request and changes no file,
    whatever the storage directory holds, and [install_or_update] raises. *)
Theorem unsupported_platform_no_install (e : env) (w : world) :
  get_platform_suffix e = None ->
  exists w',
    download_binary e w = (Ok None, w') /\
    requests w' = requests w /\ files w' = files w /\
    printed w' =
      printed w ++ [MsgUnsupported (platform_system e) (platform_machine e)] /\
    FleetLsp.install_or_update e w =
      (Raise (RuntimeError "Failed to download fleet-schema-gen binary"), w').
Proof.
  intros H. eexists. rewrite download_binary_unsupported by assumption.
  split; [reflexivity|]. repeat (split; [reflexivity|]).
  unfold FleetLsp.install_or_update, bind.
  rewrite download_binary_unsupported by assumption. reflexivity.
Qed.

(** C1 does not hold as worded: on a host whose platform has no asset in the
    latest release, a present binary and a matching version file do not
    make [download_binary] return the path; it returns nothing, after the
    listing request. *)
Lemma idempotence_needs_platform_asset :
  ~ install_is_idempotent mac_host (installed_storage "2.3.1").
Proof.
  intros H.
  destruct (H release_231 (mk_file 420 "2.3.1")) as (w' & Hrun & _);
    [reflexivity | vm_compute; eauto | reflexivity | reflexivity |].
  vm_compute in Hrun. discriminate Hrun.
Qed.

(** What the code does there: one request, for the listing, and the
    "no matching asset" line. *)
Example mac_host_returns_nothing :
  download_binary mac_host (installed_storage "2.3.1") =
  (Ok None,
   mk_world (files (installed_storage "2.3.1")) [RELEASES_URL]
            [MsgNoAsset "fleet-schema-gen-2.3.1-darwin-arm64.tar.gz"]).
Proof. vm_compute. reflexivity. Qed.

(** C1, amended.  When the platform is supported, the latest release that
    ships the binary has an asset named
    [fleet-schema-gen-<version>-<platform>.tar.gz] with a non-empty URL, the
    binary exists and the version file, stripped of surrounding white
    space, holds the version of that release, [download_binary] returns the
    path of the existing binary, changes no file, prints nothing, and the
    only request it sends is the one for the release listing: no archive
    is downloaded. *)
Theorem download_binary_idempotent (e : env) (w : world)
    (sfx url : string) (rel : release) (f : file) :
  get_platform_suffix e = Some sfx ->
  latest_release e = Some rel ->
  find_asset_url (archive_name rel sfx) (assets_of rel) = Some url ->
  url <> EmptyString ->
  is_Some (lookup_file (files w) (binary_file e)) ->
  lookup_file (files w) (version_file e) = Some f ->
  Py.strip (contents f) = version_of rel ->
  exists w',
    download_binary e w = (Ok (Some (binary_file e)), w') /\
    requests w' = requests w ++ [RELEASES_URL] /\
    files w' = files w /\ printed w' = printed w.
Proof.
  intros Hs Hl Ha Hu Hb Hv Hver. unfold latest_release in Hl.
  destruct (listing e) as [rs|] eqn:Hrs; [|discriminate Hl].
  rewrite (download_binary_found e w sfx rs rel url) by assumption.
  assert (is_current (files w) (binary_file e) (version_file e) (version_of rel)
          = true) as -> by (apply is_current_true; eauto).
  exists (listed w). repeat split; reflexivity.
Qed.

Lemma download_binary_idempotent_witness :
  exists w',
    download_binary linux_host (installed_storage "2.3.1") =
      (Ok (Some (binary_file linux_host)), w') /\
    requests w' = requests (installed_storage "2.3.1") ++ [RELEASES_URL] /\
    files w' = files (installed_storage "2.3.1") /\
    printed w' = printed (installed_storage "2.3.1").
Proof.
  apply (download_binary_idempotent linux_host (installed_storage "2.3.1")
           "linux-x64"
           "https://example.test/fleet-schema-gen-2.3.1-linux-x64.tar.gz"
           release_231 (mk_file 420 "2.3.1")).
  - reflexivity.
  - reflexivity.
  - reflexivity.
  - discriminate.
  - vm_compute. eauto.
  - reflexivity.
  - reflexivity.
Defined.

(** A call that printed the download line and then the failure line ran the
    [try] block, which raised the exception named in the failure line. *)
Lemma download_failed_inv (e : env) (w w' : world)
    (r : result (option string)) (name : string) (x : exn) :
  download_binary e w = (r, w') ->
  printed w' = printed w ++ [MsgDownloading name; MsgDownloadFailed x] ->
  exists sfx rel url w1,
    latest_release e = Some rel /\
    is_current (files w) (binary_file e) (version_file e) (version_of rel)
      = false /\
    install_steps e (storage_dir e) (binary_file e) (version_file e)
      (archive_name rel sfx) url (version_of rel)
      (downloading w (archive_name rel sfx)) = (Raise x, w1) /\
    r = Ok (if isfile (files w1) (binary_file e)
            then Some (binary_file e) else None) /\
    files w' = files w1.
Proof.
  intros Hrun Hp.
  destruct (download_binary_inv e w)
    as [(o & w1 & H & _ & _ & ms & Hms & Hno)
       | (sfx & rel & url & Hrel & Hcur & H)];
    rewrite H in Hrun.
  - injection Hrun as <- <-. rewrite Hms in Hp. apply app_inv_head in Hp.
    exfalso. eapply Hno. exact Hp.
  - destruct (install_steps _ _ _ _ _ _ _ _) as [[o|y] w1] eqn:Hi.
    + injection Hrun as <- <-.
      apply install_steps_cases in Hi
        as (_ & [(_ & Hpr & _) | (z & Hz & _)]); [|discriminate Hz].
      rewrite Hpr in Hp. cbn [downloading printed] in Hp.
      rewrite <- app_assoc in Hp. apply app_inv_head in Hp. discriminate Hp.
    + unfold fallback in Hrun. injection Hrun as <- <-.
      pose proof Hi as Hc. apply install_steps_cases in Hc
        as (_ & [(Hz & _) | (z & Hz & Hpr & _)]); [discriminate Hz|].
      cbn [printed] in Hp. rewrite Hpr in Hp. cbn [downloading printed] in Hp.
      rewrite <- app_assoc in Hp. apply app_inv_head in Hp.
      injection Hp as _ <-.
      exists sfx, rel, url, w1. repeat split; assumption || reflexivity.
Qed.

(** C2 does not hold as worded, in either half.  On a host whose disk
    fills up while the version file is written, the version file of the
    earlier installation, [2.3.0], is left holding [2.3]: neither absent nor
    what it was.  On a host where the removal of the archive fails, the
    version file still says [2.3.0], but the binary beside it is already the
    one of [2.3.1], and [server_version], which asks the binary, answers
    [2.3.1]. *)
Lemma failed_install_can_show :
  ~ failed_install_stays_hidden linux_host_torn_marker (installed_storage "2.3.0") /\
  ~ failed_install_stays_hidden linux_host_unlink_fails (installed_storage "2.3.0").
Proof.
  split; intros H.
  - destruct (H (fst (download_binary linux_host_torn_marker (installed_storage "2.3.0")))
                (snd (download_binary linux_host_torn_marker (installed_storage "2.3.0")))
                "fleet-schema-gen-2.3.1-linux-x64.tar.gz" MarkerWriteError release_231)
      as [Hm _]; [vm_compute; reflexivity | vm_compute; reflexivity | reflexivity |].
    vm_compute in Hm. destruct Hm as [Hm | Hm]; discriminate Hm.
  - destruct (H (fst (download_binary linux_host_unlink_fails (installed_storage "2.3.0")))
                (snd (download_binary linux_host_unlink_fails (installed_storage "2.3.0")))
                "fleet-schema-gen-2.3.1-linux-x64.tar.gz" UnlinkError release_231)
      as [_ Hv]; [vm_compute; reflexivity | vm_compute; reflexivity | reflexivity |].
    apply Hv. vm_compute. reflexivity.
Qed.

(** What the code does on the first host: the new binary is in place, the
    version file is cut after three characters, the path is returned from
    the [except] clause. *)
Example torn_version_file :
  let '(r, w') := download_binary linux_host_torn_marker (installed_storage "2.3.0") in
  r = Ok (Some "/cache/Package Storage/LSP-fleet/fleet-schema-gen") /\
  printed w' = [MsgDownloading "fleet-schema-gen-2.3.1-linux-x64.tar.gz";
                MsgDownloadFailed MarkerWriteError] /\
  map_to_list (files w') =
    [("/cache/Package Storage/LSP-fleet/version", mk_file 420 "2.3");
     ("/cache/Package Storage/LSP-fleet/fleet-schema-gen",
      mk_file 493 "binary 2.3.1")].
Proof. vm_compute. repeat split; reflexivity. Qed.

(** And on the second: old version file, new binary, archive left behind,
    and the probe reports the new version. *)
Example new_binary_beside_old_version_file :
  let '(r, w') := download_binary linux_host_unlink_fails (installed_storage "2.3.0") in
  r = Ok (Some "/cache/Package Storage/LSP-fleet/fleet-schema-gen") /\
  printed w' = [MsgDownloading "fleet-schema-gen-2.3.1-linux-x64.tar.gz";
                MsgDownloadFailed UnlinkError] /\
  files w' !! "/cache/Package Storage/LSP-fleet/version" =
    Some (mk_file 420 "2.3.0") /\
  files w' !! "/cache/Package Storage/LSP-fleet/fleet-schema-gen" =
    Some (mk_file 493 "binary 2.3.1") /\
  fst (FleetLsp.server_version linux_host_unlink_fails w') = Ok "2.3.1".
Proof. vm_compute. repeat split; reflexivity. Qed.

(** C2, amended.  When a call of [download_binary] ends in the [except]
    clause with any exception but the one of the write to the version
    file, that is, an exception of the download, the extraction, the
    permission change, the removal of the archive or the opening of the
    version file, the version file is absent if it was absent before the
    call and holds what it held otherwise; so when a binary was in place
    before the call, the version file does not name the version of the
    release that was being installed.  When the exception is the one of
    the write itself, the version file holds a prefix of that version, as
    long as the host let through. *)
Theorem version_file_written_last (e : env) (w w' : world)
    (r : result (option string)) (name : string) (x : exn) :
  download_binary e w = (r, w') ->
  printed w' = printed w ++ [MsgDownloading name; MsgDownloadFailed x] ->
  exists rel,
    latest_release e = Some rel /\
    match x with
    | MarkerWriteError =>
        exists n f,
          io_marker e = IoTorn n /\
          lookup_file (files w') (version_file e) = Some f /\
          contents f = String.substring 0 n (version_of rel)
    | _ =>
        contents <$> lookup_file (files w') (version_file e) =
        contents <$> lookup_file (files w) (version_file e) /\
        (is_Some (lookup_file (files w) (binary_file e)) ->
         ~ exists f, lookup_file (files w') (version_file e) = Some f /\
                     Py.strip (contents f) = version_of rel)
    end.
Proof.
  intros Hrun Hp.
  destruct (download_failed_inv e w w' r name x Hrun Hp)
    as (sfx & rel & url & w1 & Hrel & Hcur & Hi & _ & Hf).
  exists rel. split; [exact Hrel|].
  assert (Hkept : x <> MarkerWriteError ->
            contents <$> lookup_file (files w') (version_file e) =
            contents <$> lookup_file (files w) (version_file e) /\
            (is_Some (lookup_file (files w) (binary_file e)) ->
             ~ exists f, lookup_file (files w') (version_file e) = Some f /\
                         Py.strip (contents f) = version_of rel)).
  { intros Hx. pose proof Hi as Hc.
    apply install_steps_cases in Hc as (_ & [(Hz & _) | (z & Hz & _ & Hv & _)]);
      [discriminate Hz|].
    injection Hz as <-.
    assert (Hsame : lookup_file (files w') (version_file e) =
                    lookup_file (files w) (version_file e)).
    { rewrite !lookup_file_nonempty by apply version_file_nonempty.
      rewrite Hf. apply Hv. exact Hx. }
    split; [now rewrite Hsame|].
    intros Hb Hnames. rewrite Hsame in Hnames.
    assert (is_current (files w) (binary_file e) (version_file e) (version_of rel)
            = true) as Ht by (apply is_current_true; auto).
    rewrite Ht in Hcur. discriminate Hcur. }
  destruct x; try (apply Hkept; discriminate).
  apply install_steps_marker_torn in Hi as (n & mode & Hio & Hm).
  exists n, (mk_file mode (String.substring 0 n (version_of rel))).
  split; [exact Hio|]. split; [|reflexivity].
  rewrite lookup_file_nonempty by apply version_file_nonempty.
  rewrite Hf. exact Hm.
Qed.

Lemma version_file_written_last_witness :
  exists rel,
    latest_release linux_host_unlink_fails = Some rel /\
    (contents <$>
       lookup_file
         (files (snd (download_binary linux_host_unlink_fails
                        (installed_storage "2.3.0"))))
         (version_file linux_host_unlink_fails) =
     contents <$>
       lookup_file (files (installed_storage "2.3.0"))
         (version_file linux_host_unlink_fails) /\
     (is_Some (lookup_file (files (installed_storage "2.3.0"))
                 (binary_file linux_host_unlink_fails)) ->
      ~ exists f,
          lookup_file
            (files (snd (download_binary linux_host_unlink_fails
                           (installed_storage "2.3.0"))))
            (version_file linux_host_unlink_fails) = Some f /\
          Py.strip (contents f) = version_of rel)).
Proof.
  apply (version_file_written_last linux_host_unlink_fails
           (installed_storage "2.3.0") _
           (fst (download_binary linux_host_unlink_fails (installed_storage "2.3.0")))
           "fleet-schema-gen-2.3.1-linux-x64.tar.gz" UnlinkError).
  - vm_compute. reflexivity.
  - vm_compute. reflexivity.
Defined.


(** What the code does there: the binary is extracted and made executable,
    the archive stays, no version file is written, and the path comes back
    from the [except] clause. *)
Example fresh_install_unlink_fails :
  let '(r, w') := download_binary linux_host_unlink_fails empty_storage in
  r = Ok (Some "/cache/Package Storage/LSP-fleet/fleet-schema-gen") /\
  printed w' = [MsgDownloading "fleet-schema-gen-2.3.1-linux-x64.tar.gz";
                MsgDownloadFailed UnlinkError] /\
  files w' !! "/cache/Package Storage/LSP-fleet/fleet-schema-gen" =
    Some (mk_file 493 "binary 2.3.1") /\
  files w' !! "/cache/Package Storage/LSP-fleet/version" = None.
Proof. vm_compute. repeat split; reflexivity. Qed.



(** ** The failure signal of [install_or_update] *)

(** C4 does not hold as worded: on a host that refuses the download, with
    the binary of an earlier installation in the storage directory, the
    download fails and [install_or_update] returns normally. *)
Lemma stale_binary_hides_failed_download :
  ~ failed_download_is_signalled linux_host_no_download (installed_storage "2.3.0").
Proof.
  intros H.
  destruct (H (fst (download_binary linux_host_no_download (installed_storage "2.3.0")))
              (snd (download_binary linux_host_no_download (installed_storage "2.3.0")))
              "fleet-schema-gen-2.3.1-linux-x64.tar.gz" URLError)
    as [y Hy]; [vm_compute; reflexivity | vm_compute; reflexivity |].
  vm_compute in Hy. discriminate Hy.
Qed.

(** What the code does there: the failure is printed, no file changes, and
    the call returns. *)
Example refused_download_over_stale_binary :
  let '(r, w') :=
    FleetLsp.install_or_update linux_host_no_download (installed_storage "2.3.0") in
  r = Ok tt /\
  map_to_list (files w') =
    [("/cache/Package Storage/LSP-fleet/version", mk_file 420 "2.3.0");
     ("/cache/Package Storage/LSP-fleet/fleet-schema-gen",
      mk_file 493 "binary old")] /\
  requests w' =
    [RELEASES_URL;
     "https://example.test/fleet-schema-gen-2.3.1-linux-x64.tar.gz"] /\
  printed w' = [MsgDownloading "fleet-schema-gen-2.3.1-linux-x64.tar.gz";
                MsgDownloadFailed URLError].
Proof. vm_compute. repeat split; reflexivity. Qed.

(** C4, amended.  Whenever [download_binary] returns, [install_or_update]
    raises exactly when it returned nothing, the error being the
    [RuntimeError] of the source, and returns normally when it returned a
    path.  A failed download is not always answered with nothing: after an
    exception in the [try] block [download_binary] returns nothing exactly
    when no file is at the binary's path at that moment, so with a binary
    there, a stale one in particular, [install_or_update] returns
    normally. *)
Theorem install_or_update_raises_iff_nothing (e : env) (w w' : world)
    (path : option string) :
  download_binary e w = (Ok path, w') ->
  FleetLsp.install_or_update e w =
    (match path with
     | None => Raise (RuntimeError "Failed to download fleet-schema-gen binary")
     | Some _ => Ok tt
     end, w') /\
  ((exists x, fst (FleetLsp.install_or_update e w) = Raise x) <-> path = None) /\
  (forall name x,
     printed w' = printed w ++ [MsgDownloading name; MsgDownloadFailed x] ->
     (path = None <-> lookup_file (files w') (binary_file e) = None)).
Proof.
  intros Hrun.
  assert (Ho : path = None \/ path = Some (binary_file e)).
  { destruct (download_binary_returns e w) as (o & w1 & H & Ho).
    rewrite H in Hrun. injection Hrun as <- <-. exact Ho. }
  assert (Hcall : FleetLsp.install_or_update e w =
                  (match path with
                   | None => Raise (RuntimeError "Failed to download fleet-schema-gen binary")
                   | Some _ => Ok tt
                   end, w')).
  { unfold FleetLsp.install_or_update, bind. rewrite Hrun.
    destruct Ho as [-> | ->]; [reflexivity|].
    pose proof (binary_file_nonempty e) as Hne.
    destruct (binary_file e); [congruence | reflexivity]. }
  split; [exact Hcall|]. split.
  - rewrite Hcall. cbn [fst].
    destruct path; split; try discriminate; eauto.
    intros [x Hx]. discriminate Hx.
  - intros name x Hp.
    destruct (download_failed_inv e w w' _ name x Hrun Hp)
      as (sfx & rel & url & w1 & _ & _ & _ & Hr & Hf).
    injection Hr as ->. unfold isfile. rewrite <- Hf.
    destruct (lookup_file (files w') (binary_file e)) as [f|].
    + rewrite bool_decide_eq_true_2 by eauto. split; discriminate.
    + rewrite bool_decide_eq_false_2 by (intros [? ?]; discriminate).
      split; reflexivity.
Qed.

Lemma install_or_update_raises_iff_nothing_witness :
  FleetLsp.install_or_update linux_host_no_download (installed_storage "2.3.0") =
    (Ok tt, snd (download_binary linux_host_no_download (installed_storage "2.3.0")))
  /\
  ((exists x, fst (FleetLsp.install_or_update linux_host_no_download
                     (installed_storage "2.3.0")) = Raise x)
   <-> Some (binary_file linux_host_no_download) = None) /\
  (forall name x,
     printed (snd (download_binary linux_host_no_download (installed_storage "2.3.0")))
     = printed (installed_storage "2.3.0")
       ++ [MsgDownloading name; MsgDownloadFailed x] ->
     (Some (binary_file linux_host_no_download) = None <->
      lookup_file
        (files (snd (download_binary linux_host_no_download
                       (installed_storage "2.3.0"))))
        (binary_file linux_host_no_download) = None)).
Proof.
  apply (install_or_update_raises_iff_nothing linux_host_no_download
           (installed_storage "2.3.0")
           (snd (download_binary linux_host_no_download (installed_storage "2.3.0")))
           (Some (binary_file linux_host_no_download))).
  vm_compute. reflexivity.
Defined.

(** ** An archive without the binary *)

Lemma bind_ok {A B} (c : M A) (k : A -> M B) (w w1 : world) (a : A) :
  c w = (Ok a, w1) -> bind c k w = k a w1.
Proof. intros H. unfold bind. rewrite H. reflexivity. Qed.

Lemma find_member_none (members : list tar_member) :
  find_member members = None <->
  Forall (fun m => member_name m <> BINARY_NAME /\
                   forall pre, member_name m <> pre +:+ "/" +:+ BINARY_NAME)
         members.
Proof.
  induction members as [|m ms IH]; simpl.
  - split; [constructor | reflexivity].
  - destruct (String.eqb (member_name m) BINARY_NAME) eqn:He; simpl.
    + apply String.eqb_eq in He. split; [discriminate|].
      intros H. apply Forall_inv in H as [H _]. contradiction.
    + apply String.eqb_neq in He.
      destruct (Py.endswith (member_name m) ("/" +:+ BINARY_NAME)) eqn:Hs.
      * apply endswith_spec in Hs as [pre Hpre]. split; [discriminate|].
        intros H. apply Forall_inv in H as [_ H]. exfalso. eapply H, Hpre.
      * rewrite IH. split.
        -- intros H. constructor; [|assumption]. split; [assumption|].
           intros pre Hpre.
           assert (Py.endswith (member_name m) ("/" +:+ BINARY_NAME) = true)
             as Ht by (apply endswith_spec; eauto).
           rewrite Ht in Hs. discriminate Hs.
        -- apply Forall_inv_tail.
Qed.

Lemma download_archive_ok (e : env) (url p body : string) (w : world) :
  http_get e url = HttpBody body -> io_archive e = IoOk ->
  exists mode,
    download_archive e url p w =
    (Ok tt, mk_world (<[p := mk_file mode body]> (files w))
                     (requests w ++ [url]) (printed w)).
Proof.
  intros Hh Hio. unfold download_archive, open_truncate, write_all, set_contents.
  unfold_m. rewrite Hh, Hio. cbn [files requests printed].
  eexists. rewrite insert_insert_eq. reflexivity.
Qed.

Lemma write_text_ok (e : env) (p data : string) (w : world) :
  io_marker e = IoOk ->
  exists mode,
    write_text e p data w =
    (Ok tt, mk_world (<[p := mk_file mode data]> (files w))
                     (requests w) (printed w)).
Proof.
  intros Hio. unfold write_text, open_truncate, write_all, set_contents.
  unfold_m. rewrite Hio. cbn [files requests printed].
  eexists. rewrite insert_insert_eq. reflexivity.
Qed.

(** The [try] block when the archive holds no member to extract and a
    binary is already in place. *)
Lemma install_steps_nothing_extracted (e : env) (rel : release)
    (sfx url body : string) (members : list tar_member) (fb : file) (w : world) :
  http_get e url = HttpBody body -> io_archive e = IoOk ->
  untar e body = Some members -> find_member members = None ->
  files w !! binary_file e = Some fb ->
  chmod_fails e = false -> unlink_fails e = false -> io_marker e = IoOk ->
  exists ma mv,
    install_steps e (storage_dir e) (binary_file e) (version_file e)
      (archive_name rel sfx) url (version_of rel) w =
    (Ok (Some (binary_file e)),
     mk_world
       (<[version_file e := mk_file mv (version_of rel)]>
          (delete (archive_file e rel sfx)
             (<[binary_file e :=
                  mk_file (Z.lor (Z.lor (Z.lor (st_mode fb) S_IXUSR) S_IXGRP) S_IXOTH)
                          (contents fb)]>
                (<[archive_file e rel sfx := mk_file ma body]> (files w)))))
       (requests w ++ [url])
       (printed w ++ [MsgInstalled (version_of rel)])).
Proof.
  intros Hh Hio Hu Hm Hb Hc Hun Hmk.
  pose proof (archive_binary_distinct e rel sfx) as Hab.
  pose proof (archive_file_nonempty e rel sfx) as Hane.
  pose proof (binary_file_nonempty e) as Hbne.
  unfold install_steps.
  change (Py.path_join (storage_dir e) (archive_name rel sfx))
    with (archive_file e rel sfx).
  destruct (download_archive_ok e url (archive_file e rel sfx) body w Hh Hio)
    as [ma H1].
  rewrite (bind_ok _ _ _ _ _ H1).
  (* nothing is extracted *)
  match goal with |- context [bind (extract_binary ?e ?a ?s) ?k ?w1] =>
    assert (H2 : extract_binary e a s w1 = (Ok tt, w1)) end.
  { unfold extract_binary, read_file. unfold_m. cbn [files].
    rewrite lookup_file_nonempty, lookup_insert_eq by assumption.
    cbn [contents]. rewrite Hu, Hm. reflexivity. }
  rewrite (bind_ok _ _ _ _ _ H2).
  (* chmod of the binary that was there *)
  match goal with |- context [bind (make_executable ?e ?b) ?k ?w1] =>
    assert (H3 : make_executable e b w1 =
      (Ok tt, mk_world
         (<[b := mk_file (Z.lor (Z.lor (Z.lor (st_mode fb) S_IXUSR) S_IXGRP) S_IXOTH)
                         (contents fb)]> (files w1))
         (requests w1) (printed w1))) end.
  { unfold make_executable. unfold_m. cbn [files].
    rewrite lookup_file_nonempty, lookup_insert_ne, Hb, Hc by assumption.
    reflexivity. }
  rewrite (bind_ok _ _ _ _ _ H3). cbn [files requests printed].
  (* the archive is removed *)
  match goal with |- context [bind (unlink ?e ?a) ?k ?w1] =>
    assert (H4 : unlink e a w1 =
      (Ok tt, mk_world (delete a (files w1)) (requests w1) (printed w1))) end.
  { unfold unlink. unfold_m. cbn [files].
    rewrite lookup_file_nonempty, lookup_insert_ne, lookup_insert_eq, Hun
      by congruence.
    reflexivity. }
  rewrite (bind_ok _ _ _ _ _ H4). cbn [files requests printed].
  (* the version file is written *)
  match goal with |- context [bind (write_text ?e ?p ?d) ?k ?w1] =>
    destruct (write_text_ok e p d w1 Hmk) as [mv H5] end.
  rewrite (bind_ok _ _ _ _ _ H5). cbn [files requests printed].
  exists ma, mv. reflexivity.
Qed.

(** C3.  When the archive of the release is downloaded and decoded, none of
    its members is named [fleet-schema-gen] or ends with
    [/fleet-schema-gen], a binary is already at the target path, and the
    permission change, the removal of the archive and the write of the
    version file go through, [download_binary] returns the path of that
    binary and prints the success line; afterwards the archive is gone, the
    version file holds the version of the new release, and the binary has
    the contents it had before the call, with the execute bits added. *)
Theorem stale_binary_reported_installed (e : env) (w : world)
    (sfx url body : string) (rel : release) (members : list tar_member)
    (fb : file) :
  get_platform_suffix e = Some sfx ->
  latest_release e = Some rel ->
  find_asset_url (archive_name rel sfx) (assets_of rel) = Some url ->
  url <> EmptyString ->
  lookup_file (files w) (binary_file e) = Some fb ->
  ~ (exists f, lookup_file (files w) (version_file e) = Some f /\
               Py.strip (contents f) = version_of rel) ->
  http_get e url = HttpBody body ->
  untar e body = Some members ->
  Forall (fun m => member_name m <> BINARY_NAME /\
                   forall pre, member_name m <> pre +:+ "/" +:+ BINARY_NAME)
         members ->
  io_archive e = IoOk -> chmod_fails e = false ->
  unlink_fails e = false -> io_marker e = IoOk ->
  exists w',
    download_binary e w = (Ok (Some (binary_file e)), w') /\
    lookup_file (files w') (archive_file e rel sfx) = None /\
    (exists mode, lookup_file (files w') (version_file e) =
                  Some (mk_file mode (version_of rel))) /\
    lookup_file (files w') (binary_file e) =
      Some (mk_file (Z.lor (Z.lor (Z.lor (st_mode fb) S_IXUSR) S_IXGRP) S_IXOTH)
                    (contents fb)) /\
    printed w' =
      printed w ++ [MsgDownloading (archive_name rel sfx);
                    MsgInstalled (version_of rel)].
Proof.
  intros Hs Hl Ha Hu Hb Hnc Hh Hun Hms Hio Hc Hul Hmk.
  unfold latest_release in Hl.
  destruct (listing e) as [rs|] eqn:Hrs; [|discriminate Hl].
  rewrite (download_binary_found e w sfx rs rel url) by assumption.
  assert (is_current (files w) (binary_file e) (version_file e) (version_of rel)
          = false) as ->.
  { destruct (is_current _ _ _ _) eqn:Hcur; [|reflexivity].
    apply is_current_true in Hcur as [_ Hcur]. contradiction. }
  rewrite lookup_file_nonempty in Hb by apply binary_file_nonempty.
  apply find_member_none in Hms.
  destruct (install_steps_nothing_extracted e rel sfx url body members fb
              (downloading w (archive_name rel sfx)))
    as (ma & mv & ->); try assumption.
  pose proof (archive_binary_distinct e rel sfx) as Hab.
  pose proof (archive_version_distinct e rel sfx) as Hav.
  pose proof (binary_version_distinct e) as Hbv.
  eexists. split; [reflexivity|]. cbn [files printed downloading].
  rewrite !lookup_file_nonempty
    by (apply archive_file_nonempty || apply version_file_nonempty
        || apply binary_file_nonempty).
  split; [|split; [|split]].
  - rewrite lookup_insert_ne by congruence. apply lookup_delete_eq.
  - exists mv. apply lookup_insert_eq.
  - rewrite lookup_insert_ne, lookup_delete_ne by congruence.
    apply lookup_insert_eq.
  - now rewrite <- app_assoc.
Qed.

Lemma stale_binary_reported_installed_witness :
  exists w',
    download_binary linux_host_odd_archive (installed_storage "2.3.0") =
      (Ok (Some (binary_file linux_host_odd_archive)), w') /\
    lookup_file (files w')
      (archive_file linux_host_odd_archive release_231 "linux-x64") = None /\
    (exists mode, lookup_file (files w') (version_file linux_host_odd_archive) =
                  Some (mk_file mode (version_of release_231))) /\
    lookup_file (files w') (binary_file linux_host_odd_archive) =
      Some (mk_file (Z.lor (Z.lor (Z.lor 493 S_IXUSR) S_IXGRP) S_IXOTH)
                    "binary old") /\
    printed w' =
      printed (installed_storage "2.3.0") ++
      [MsgDownloading (archive_name release_231 "linux-x64");
       MsgInstalled (version_of release_231)].
Proof.
  apply (stale_binary_reported_installed linux_host_odd_archive
           (installed_storage "2.3.0") "linux-x64"
           "https://example.test/fleet-schema-gen-2.3.1-linux-x64.tar.gz"
           "archive-bytes" release_231 archive_without_binary
           (mk_file 493 "binary old")).
  - reflexivity.
  - reflexivity.
  - reflexivity.
  - discriminate.
  - vm_compute. reflexivity.
  - intros (f & Hf & Hv). vm_compute in Hf. injection Hf as <-.
    vm_compute in Hv. discriminate Hv.
  - reflexivity.
  - reflexivity.
  - apply find_member_none. reflexivity.
  - reflexivity.
  - reflexivity.
  - reflexivity.
  - reflexivity.
Defined.

Lemma unsupported_platform_no_install_witness :
  exists w',
    download_binary bsd_host (installed_storage "2.3.1") = (Ok None, w') /\
    requests w' = requests (installed_storage "2.3.1") /\
    files w' = files (installed_storage "2.3.1") /\
    printed w' =
      printed (installed_storage "2.3.1") ++
      [MsgUnsupported (platform_system bsd_host) (platform_machine bsd_host)] /\
    FleetLsp.install_or_update bsd_host (installed_storage "2.3.1") =
      (Raise (RuntimeError "Failed to download fleet-schema-gen binary"), w').
Proof.
  apply (unsupported_platform_no_install bsd_host (installed_storage "2.3.1")).
  reflexivity.
Defined.

(** ** Resolution order *)

(** What [get_binary_path] returns is nothing or a non-empty path: every
    [return] of the source but the last hands out a path that passed a
    truth test. *)
Lemma get_binary_path_truthy (e : env) (w w' : world) (o : option string) :
  get_binary_path e w = (Ok o, w') -> o = None \/ Py.truthy o = true.
Proof.
  unfold get_binary_path, find_binary_in_common_paths, find_binary_in_path.
  unfold_m.
  destruct (configured_file (files w) (setting_binary_path e)) eqn:Hc.
  { intros [= <- <-]. right.
    unfold configured_file in Hc. destruct (setting_binary_path e); [|discriminate].
    now apply andb_true_iff in Hc as [Hc _]. }
  destruct (Py.truthy (which e)) eqn:Hw.
  { intros [= <- <-]. auto. }
  destruct (Py.truthy (first_executable (files w) (common_paths e))) eqn:Hp.
  { intros [= <- <-]. auto. }
  destruct (download_binary e w) as [[p|x] w1]; [|discriminate].
  destruct (Py.truthy p) eqn:Ht; intros [= <- <-]; auto.
Qed.

(** C7.  When the configured [binary_path] names an existing file,
    [get_binary_path] returns it and does nothing else, whatever the
    search path and the well-known directories hold and whatever the mode
    of the file is. *)
Theorem configured_path_wins (e : env) (w : world) (p : string) (f : file) :
  setting_binary_path e = Some p ->
  lookup_file (files w) p = Some f ->
  get_binary_path e w = (Ok (Some p), w).
Proof.
  intros Hp Hf. unfold get_binary_path. unfold_m.
  rewrite Hp. unfold configured_file, isfile. rewrite Hf.
  rewrite bool_decide_eq_true_2 by eauto.
  destruct p as [|c p]; [discriminate Hf | reflexivity].
Qed.

Lemma configured_path_wins_witness :
  get_binary_path configured_host two_binaries =
  (Ok (Some "/opt/tools/fleet-schema-gen"), two_binaries).
Proof.
  apply (configured_path_wins configured_host two_binaries
           "/opt/tools/fleet-schema-gen" (mk_file 420 "configured")).
  - reflexivity.
  - vm_compute. reflexivity.
Defined.

Lemma get_latest_release_info_first_with_asset_witness :
  exists res w',
    get_latest_release_info linux_host empty_storage = (Ok res, w') /\
    (forall r, res = Some r <->
       exists newer older,
         [release_without_binary; release_231] = newer ++ r :: older /\
         ships_binary r /\ Forall (fun r' => ~ ships_binary r') newer) /\
    (res = None <->
     Forall (fun r => ~ ships_binary r) [release_without_binary; release_231]) /\
    (forall R1 R2 older,
       [release_without_binary; release_231] = R1 :: R2 :: older ->
       ~ ships_binary R1 -> ships_binary R2 -> res = Some R2).
Proof.
  apply (get_latest_release_info_first_with_asset linux_host empty_storage
           [release_without_binary; release_231]).
  reflexivity.
Defined.

(** ** A fresh installation, end to end *)

(** Empty storage directory, release [v2.3.1] with the linux-x64 archive:
    after [get_binary_path] the directory holds the executable binary and a
    version file with exactly [2.3.1], and the archive is gone. *)
Example fresh_install_end_to_end :
  let '(r, w') := get_binary_path linux_host empty_storage in
  r = Ok (Some "/cache/Package Storage/LSP-fleet/fleet-schema-gen") /\
  map_to_list (files w') =
    [("/cache/Package Storage/LSP-fleet/version", mk_file 420 "2.3.1");
     ("/cache/Package Storage/LSP-fleet/fleet-schema-gen",
      mk_file 493 "binary 2.3.1")] /\
  requests w' =
    [RELEASES_URL;
     "https://example.test/fleet-schema-gen-2.3.1-linux-x64.tar.gz"] /\
  printed w' = [MsgDownloading "fleet-schema-gen-2.3.1-linux-x64.tar.gz";
                MsgInstalled "2.3.1"].
Proof. vm_compute. repeat split; reflexivity. Qed.

(** ** The last token of the probe's output *)

Lemma split_from_solid (tok cur rest : string) :
  solid tok = true ->
  Py.split_from cur (tok +:+ rest) = Py.split_from (cur +:+ tok) rest.
Proof.
  revert cur. induction tok as [|c tok IH]; intros cur Hs.
  - now rewrite append_empty_r.
  - simpl in Hs. apply andb_true_iff in Hs as [Hc Hs].
    apply negb_true_iff in Hc. rewrite append_cons. simpl. rewrite Hc.
    rewrite IH by assumption. now rewrite append_assoc.
Qed.

Lemma split_from_blank (post cur : string) :
  blank post = true ->
  Py.split_from cur post = match cur with EmptyString => [] | _ => [cur] end.
Proof.
  revert cur. induction post as [|c post IH]; intros cur Hb; [reflexivity|].
  simpl in Hb. apply andb_true_iff in Hb as [Hc Hb]. simpl. rewrite Hc.
  rewrite (IH EmptyString) by assumption. reflexivity.
Qed.

Lemma split_from_after_space (pre cur rest : string) (c : ascii) :
  Py.isspace c = true ->
  exists l, Py.split_from cur (pre +:+ String c rest) =
            l ++ Py.split_from EmptyString rest.
Proof.
  intros Hc. revert cur. induction pre as [|d pre IH]; intros cur.
  - change (EmptyString +:+ String c rest) with (String c rest).
    simpl. rewrite Hc. destruct cur; [exists [] | exists [String a cur]]; reflexivity.
  - rewrite append_cons. simpl. destruct (Py.isspace d).
    + destruct (IH EmptyString) as [l Hl]. rewrite Hl.
      destruct cur; [exists l | exists (String a cur :: l)]; reflexivity.
    + apply IH.
Qed.

Lemma last_item_snoc {A} (l : list A) (x : A) : Py.last_item (l ++ [x]) = Some x.
Proof. unfold Py.last_item. rewrite rev_app_distr. reflexivity. Qed.

Lemma last_token_split (out tok : string) :
  last_token out tok -> Py.last_item (Py.split out) = Some tok.
Proof.
  intros (Hne & Hs & pre & post & -> & Hb & Hpre). unfold Py.split.
  assert (Htail : Py.split_from EmptyString (tok +:+ post) = [tok]).
  { rewrite split_from_solid by assumption.
    change (EmptyString +:+ tok) with tok.
    rewrite split_from_blank by assumption. destruct tok; congruence. }
  destruct Hpre as [-> | (pre' & c & -> & Hc)].
  - change (EmptyString +:+ tok +:+ post) with (tok +:+ post).
    rewrite Htail. reflexivity.
  - rewrite append_assoc.
    change (String c EmptyString +:+ tok +:+ post) with (String c (tok +:+ post)).
    destruct (split_from_after_space pre' EmptyString (tok +:+ post) c Hc)
      as [l ->].
    rewrite Htail. apply last_item_snoc.
Qed.

Lemma blank_or_last_token (s : string) :
  blank s = true \/ exists tok, last_token s tok.
Proof.
  induction s as [|c s IH]; [left; reflexivity|].
  destruct (Py.isspace c) eqn:Hc.
  - destruct IH as [Hb | (tok & Hne & Hs & pre & post & -> & Hb & Hpre)].
    + left. simpl. now rewrite Hc.
    + right. exists tok. split; [assumption|]. split; [assumption|].
      exists (String c pre), post. split; [reflexivity|]. split; [assumption|].
      right. destruct Hpre as [-> | (pre' & d & -> & Hd)].
      * exists EmptyString, c. auto.
      * exists (String c pre'), d. auto.
  - destruct IH as [Hb | (tok & Hne & Hs & pre & post & -> & Hb & Hpre)].
    + right. exists (String c EmptyString). split; [discriminate|].
      split; [simpl; now rewrite Hc|].
      exists EmptyString, s. auto.
    + right. destruct Hpre as [-> | (pre' & d & -> & Hd)].
      * exists (String c tok). split; [discriminate|].
        split; [simpl; rewrite Hc; exact Hs|].
        exists EmptyString, post. auto.
      * exists tok. split; [assumption|]. split; [assumption|].
        exists (String c pre' +:+ String d EmptyString), post.
        split; [reflexivity|]. split; [assumption|]. right. eauto.
Qed.

Lemma split_lstrip (s : string) :
  Py.split_from EmptyString (Py.lstrip_ws s) = Py.split_from EmptyString s.
Proof.
  induction s as [|c s IH]; [reflexivity|].
  simpl. destruct (Py.isspace c) eqn:Hc; [exact IH|].
  simpl. rewrite Hc. reflexivity.
Qed.

Lemma split_rstrip (s cur : string) :
  Py.split_from cur (Py.rstrip_ws s) = Py.split_from cur s.
Proof.
  revert cur. induction s as [|c s IH]; intros cur; [reflexivity|].
  simpl. destruct (Py.rstrip_ws s) as [|d r] eqn:Hr.
  - destruct (Py.isspace c) eqn:Hc.
    + rewrite <- (IH EmptyString). simpl. destruct cur; reflexivity.
    + simpl. rewrite Hc. rewrite <- IH. reflexivity.
  - simpl. destruct (Py.isspace c).
    + rewrite <- (IH EmptyString). reflexivity.
    + rewrite <- IH. reflexivity.
Qed.

Lemma split_strip (s : string) : Py.split (Py.strip s) = Py.split s.
Proof. unfold Py.split, Py.strip. now rewrite split_rstrip, split_lstrip. Qed.

(** * Further properties *)

(** ** Requests and files, step by step *)

Ltac run_steps :=
  intros;
  repeat progress
    (unfold download_archive, extract_binary, tar_extract, make_executable,
       unlink, write_text, open_truncate, write_all, set_contents, read_file in *;
     unfold_m);
  repeat case_match; simplify_eq.

Lemma download_archive_requests (e : env) (url p : string)
    (w w' : world) (r : result unit) :
  download_archive e url p w = (r, w') -> requests w' = requests w ++ [url].
Proof. run_steps; reflexivity. Qed.

Lemma extract_binary_requests (e : env) (ap sp : string)
    (w w' : world) (r : result unit) :
  extract_binary e ap sp w = (r, w') -> requests w' = requests w.
Proof. run_steps; reflexivity. Qed.

Lemma make_executable_requests (e : env) (bp : string)
    (w w' : world) (r : result unit) :
  make_executable e bp w = (r, w') -> requests w' = requests w.
Proof. run_steps; reflexivity. Qed.

Lemma unlink_requests (e : env) (p : string) (w w' : world) (r : result unit) :
  unlink e p w = (r, w') -> requests w' = requests w.
Proof. run_steps; reflexivity. Qed.

Lemma write_text_requests (e : env) (p data : string)
    (w w' : world) (r : result unit) :
  write_text e p data w = (r, w') -> requests w' = requests w.
Proof. run_steps; reflexivity. Qed.

(** A download that returns has received a body and stored it. *)
Lemma download_archive_ok_inv (e : env) (url p : string) (w w' : world) :
  download_archive e url p w = (Ok tt, w') ->
  exists body mode,
    http_get e url = HttpBody body /\
    files w' = <[p := mk_file mode body]> (files w).
Proof.
  run_steps; eexists _, _; (split; [reflexivity|]); cbn [files];
    now rewrite insert_insert_eq.
Qed.

(** An extraction that returns has read the archive, decoded it, and
    either found no member or written the first matching one. *)
Lemma extract_binary_ok_inv (e : env) (ap sp : string) (w w' : world) :
  extract_binary e ap sp w = (Ok tt, w') ->
  exists f members,
    lookup_file (files w) ap = Some f /\
    untar e (contents f) = Some members /\
    match find_member members with
    | None => files w' = files w
    | Some m =>
        files w' =
        <[Py.path_join sp BINARY_NAME := mk_file (member_mode m) (member_data m)]>
          (files w)
    end.
Proof.
  run_steps; eexists _, _; (split; [reflexivity|]); (split; [eassumption|]);
    match goal with H : find_member _ = _ |- _ => rewrite H end;
    cbn [files]; rewrite ?insert_insert_eq; reflexivity.
Qed.

Lemma make_executable_ok_inv (e : env) (bp : string) (w w' : world) :
  make_executable e bp w = (Ok tt, w') ->
  exists f,
    lookup_file (files w) bp = Some f /\
    files w' = <[bp := mk_file (add_exec_bits (st_mode f)) (contents f)]> (files w).
Proof. run_steps. eexists. split; reflexivity. Qed.

Lemma unlink_ok_inv (e : env) (p : string) (w w' : world) :
  unlink e p w = (Ok tt, w') -> files w' = delete p (files w).
Proof. run_steps. reflexivity. Qed.

Lemma write_text_ok_inv (e : env) (p data : string) (w w' : world) :
  write_text e p data w = (Ok tt, w') ->
  exists mode, files w' = <[p := mk_file mode data]> (files w).
Proof.
  run_steps; eexists; cbn [files]; now rewrite insert_insert_eq.
Qed.

(** ** The [try] block, in full *)

Lemma frame_step (p q : string) (w w1 w2 : world) :
  touches_only p w1 w2 -> q <> p ->
  files w1 !! q = files w !! q -> files w2 !! q = files w !! q.
Proof. intros [Hf _] Hq H. rewrite Hf by assumption. exact H. Qed.

(** The [try] block sends one request, for the archive, and touches no
    file but the archive, the binary and the version file. *)
Lemma install_steps_effects (e : env) (rel : release) (sfx url : string)
    (w w' : world) (res : result (option string)) :
  install_steps e (storage_dir e) (binary_file e) (version_file e)
                (archive_name rel sfx) url (version_of rel) w = (res, w') ->
  requests w' = requests w ++ [url] /\
  forall q, q <> archive_file e rel sfx -> q <> binary_file e ->
            q <> version_file e -> files w' !! q = files w !! q.
Proof.
  unfold install_steps.
  change (Py.path_join (storage_dir e) (archive_name rel sfx))
    with (archive_file e rel sfx).
  intros H.
  apply bind_inv in H as [(x & H1 & ->) | ([] & w1 & H1 & H)];
    pose proof (download_archive_requests _ _ _ _ _ _ H1) as R1;
    apply download_archive_touches in H1 as (T1 & _).
  { split; [exact R1|]. intros q Ha _ _. now apply T1. }
  apply bind_inv in H as [(x & H2 & ->) | ([] & w2 & H2 & H)];
    pose proof (extract_binary_requests _ _ _ _ _ _ H2) as R2;
    apply extract_binary_touches in H2 as (T2 & _);
    change (Py.path_join (storage_dir e) BINARY_NAME) with (binary_file e) in T2.
  { split; [congruence|]. intros q Ha Hb _.
    eapply frame_step; [exact T2 | assumption | now apply T1]. }
  apply bind_inv in H as [(x & H3 & ->) | ([] & w3 & H3 & H)];
    pose proof (make_executable_requests _ _ _ _ _ H3) as R3;
    apply make_executable_touches in H3 as (T3 & _).
  { split; [congruence|]. intros q Ha Hb _.
    eapply frame_step; [exact T3 | assumption|].
    eapply frame_step; [exact T2 | assumption | now apply T1]. }
  apply bind_inv in H as [(x & H4 & ->) | ([] & w4 & H4 & H)];
    pose proof (unlink_requests _ _ _ _ _ H4) as R4;
    apply unlink_touches in H4 as (T4 & _).
  { split; [congruence|]. intros q Ha Hb _.
    eapply frame_step; [exact T4 | assumption|].
    eapply frame_step; [exact T3 | assumption|].
    eapply frame_step; [exact T2 | assumption | now apply T1]. }
  apply bind_inv in H as [(x & H5 & ->) | ([] & w5 & H5 & H)];
    pose proof (write_text_requests _ _ _ _ _ _ H5) as R5;
    apply write_text_touches in H5 as (T5 & _).
  { split; [congruence|]. intros q Ha Hb Hv.
    eapply frame_step; [exact T5 | assumption|].
    eapply frame_step; [exact T4 | assumption|].
    eapply frame_step; [exact T3 | assumption|].
    eapply frame_step; [exact T2 | assumption | now apply T1]. }
  unfold_m. injection H as <- <-. cbn [files requests].
  split; [congruence|]. intros q Ha Hb Hv.
  eapply frame_step; [exact T5 | assumption|].
  eapply frame_step; [exact T4 | assumption|].
  eapply frame_step; [exact T3 | assumption|].
  eapply frame_step; [exact T2 | assumption | now apply T1].
Qed.

(** What a [try] block that runs to its end has done. *)
Lemma install_steps_ok_inv (e : env) (rel : release) (sfx url : string)
    (w w' : world) (o : option string) :
  install_steps e (storage_dir e) (binary_file e) (version_file e)
                (archive_name rel sfx) url (version_of rel) w = (Ok o, w') ->
  exists body members fb mv,
    http_get e url = HttpBody body /\
    untar e body = Some members /\
    match find_member members with
    | Some m => fb = mk_file (member_mode m) (member_data m)
    | None => files w !! binary_file e = Some fb
    end /\
    files w' !! binary_file e =
      Some (mk_file (add_exec_bits (st_mode fb)) (contents fb)) /\
    files w' !! archive_file e rel sfx = None /\
    files w' !! version_file e = Some (mk_file mv (version_of rel)) /\
    o = Some (binary_file e) /\
    printed w' = printed w ++ [MsgInstalled (version_of rel)].
Proof.
  unfold install_steps.
  change (Py.path_join (storage_dir e) (archive_name rel sfx))
    with (archive_file e rel sfx).
  pose proof (archive_binary_distinct e rel sfx) as Hab.
  pose proof (archive_version_distinct e rel sfx) as Hav.
  pose proof (binary_version_distinct e) as Hbv.
  pose proof (archive_file_nonempty e rel sfx) as Hane.
  pose proof (binary_file_nonempty e) as Hbne.
  intros H.
  apply bind_inv in H as [(x & _ & Hx) | ([] & w1 & H1 & H)]; [discriminate Hx|].
  apply bind_inv in H as [(x & _ & Hx) | ([] & w2 & H2 & H)]; [discriminate Hx|].
  apply bind_inv in H as [(x & _ & Hx) | ([] & w3 & H3 & H)]; [discriminate Hx|].
  apply bind_inv in H as [(x & _ & Hx) | ([] & w4 & H4 & H)]; [discriminate Hx|].
  apply bind_inv in H as [(x & _ & Hx) | ([] & w5 & H5 & H)]; [discriminate Hx|].
  unfold_m. injection H as <- <-. cbn [files printed].
  pose proof (download_archive_touches _ _ _ _ _ _ H1) as ([_ P1] & _).
  pose proof (extract_binary_touches _ _ _ _ _ _ H2) as ([_ P2] & _).
  pose proof (make_executable_touches _ _ _ _ _ H3) as ([_ P3] & _).
  pose proof (unlink_touches _ _ _ _ _ H4) as ([_ P4] & _).
  pose proof (write_text_touches _ _ _ _ _ _ H5) as ([_ P5] & _).
  apply download_archive_ok_inv in H1 as (body & ma & Hh & F1).
  apply extract_binary_ok_inv in H2 as (fa & members & La & Hu & F2).
  change (Py.path_join (storage_dir e) BINARY_NAME) with (binary_file e) in F2.
  rewrite lookup_file_nonempty, F1, lookup_insert_eq in La by assumption.
  injection La as <-. cbn [contents] in Hu.
  apply make_executable_ok_inv in H3 as (f2 & L2 & F3).
  rewrite lookup_file_nonempty in L2 by assumption.
  apply unlink_ok_inv in H4 as F4.
  apply write_text_ok_inv in H5 as (mv & F5).
  exists body, members, f2, mv.
  split; [exact Hh|]. split; [exact Hu|]. split; [|split; [|split; [|split]]].
  - destruct (find_member members) as [m|].
    + rewrite F2, lookup_insert_eq in L2. now injection L2 as <-.
    + rewrite F2, F1, lookup_insert_ne in L2 by assumption. exact L2.
  - rewrite F5, lookup_insert_ne, F4, lookup_delete_ne, F3 by congruence.
    apply lookup_insert_eq.
  - rewrite F5, lookup_insert_ne, F4 by congruence. apply lookup_delete_eq.
  - rewrite F5. apply lookup_insert_eq.
  - split; [reflexivity | congruence].
Qed.

(** What a [try] block that raises has done: either the download failed
    and only the archive may have changed, or the archive is stored; in
    the second case, when the failure comes before the archive is removed,
    the archive is still there and only the binary may have changed. *)
Lemma install_steps_raise_inv (e : env) (rel : release) (sfx url : string)
    (w w' : world) (x : exn) :
  install_steps e (storage_dir e) (binary_file e) (version_file e)
                (archive_name rel sfx) url (version_of rel) w = (Raise x, w') ->
  ((x = URLError \/ x = ArchiveOpenError \/ x = IncompleteRead \/
    x = ArchiveWriteError) /\
   touches_only (archive_file e rel sfx) w w')
  \/
  (exists body mode w1,
     http_get e url = HttpBody body /\
     files w1 = <[archive_file e rel sfx := mk_file mode body]> (files w) /\
     ((x = TarReadError /\ files w' = files w1) \/
      ((x = ExtractError \/ x = FileNotFoundError \/ x = ChmodError \/
        x = UnlinkError) /\
       touches_only (binary_file e) w1 w') \/
      (x = MarkerOpenError \/ x = MarkerWriteError))).
Proof.
  unfold install_steps.
  change (Py.path_join (storage_dir e) (archive_name rel sfx))
    with (archive_file e rel sfx).
  intros H.
  apply bind_inv in H as [(y & H1 & Hy) | ([] & w1 & H1 & H)].
  { injection Hy as ->. left.
    apply download_archive_touches in H1 as (T1 & Hx). split; [|exact T1].
    now apply Hx. }
  right. apply download_archive_ok_inv in H1 as (body & mode & Hh & F1).
  exists body, mode, w1. split; [exact Hh|]. split; [exact F1|].
  apply bind_inv in H as [(y & H2 & Hy) | ([] & w2 & H2 & H)].
  { injection Hy as ->.
    apply extract_binary_touches in H2 as (T2 & _ & Hx).
    change (Py.path_join (storage_dir e) BINARY_NAME) with (binary_file e) in T2.
    destruct (Hx y eq_refl) as [-> | [[-> | ->] ->]]; auto.
    right. left. split; [auto | apply touches_only_refl]. }
  apply extract_binary_touches in H2 as (T2 & _).
  change (Py.path_join (storage_dir e) BINARY_NAME) with (binary_file e) in T2.
  apply bind_inv in H as [(y & H3 & Hy) | ([] & w3 & H3 & H)].
  { injection Hy as ->.
    apply make_executable_touches in H3 as (_ & _ & Hx).
    destruct (Hx y eq_refl) as [-> [-> | ->]]; right; left; auto. }
  apply make_executable_touches in H3 as (T3 & _).
  pose proof (touches_only_trans _ _ _ _ T2 T3) as T23.
  apply bind_inv in H as [(y & H4 & Hy) | ([] & w4 & H4 & H)].
  { injection Hy as ->. run_steps; right; left; (split; [auto | exact T23]). }
  apply bind_inv in H as [(y & H5 & Hy) | ([] & w5 & H5 & H)].
  { injection Hy as ->.
    apply write_text_touches in H5 as (_ & [(Hx & _) | [Hx | (Hx & _)]]);
      [| |discriminate Hx]; injection Hx as ->; auto. }
  unfold_m. discriminate H.
Qed.

(** ** [download_binary], case by case *)

(** The world after a listing fetch that found no release to install. *)
Lemma download_binary_no_release_run (e : env) (w : world) (sfx : string) :
  get_platform_suffix e = Some sfx ->
  latest_release e = None ->
  exists ms,
    (ms = [] \/ ms = [MsgFetchFailed FetchError]) /\
    download_binary e w =
    if isfile (files w) (binary_file e)
    then (Ok (Some (binary_file e)),
          mk_world (files w) (requests w ++ [RELEASES_URL]) (printed w ++ ms))
    else (Ok None,
          mk_world (files w) (requests w ++ [RELEASES_URL])
                   ((printed w ++ ms) ++ [MsgNoReleaseInfo])).
Proof.
  intros Hs Hl. pose proof (platform_suffix_nonempty _ _ _ Hs) as Hne.
  unfold download_binary. rewrite Hs. destruct sfx as [|c sfx]; [congruence|].
  cbv beta iota zeta delta [bind ret print get_storage_path path_exists get_files].
  rewrite get_latest_release_info_run.
  change (Py.path_join (Py.path_join (cache_path e) "Package Storage") PACKAGE_NAME)
    with (storage_dir e).
  change (Py.path_join (storage_dir e) BINARY_NAME) with (binary_file e).
  unfold latest_release in Hl.
  destruct (listing e) as [rs|]; [rewrite Hl|]; cbn [files printed requests];
    [exists [] | exists [MsgFetchFailed FetchError]];
    (split; [auto|]); rewrite ?app_nil_r; unfold isfile;
    destruct (bool_decide _); reflexivity.
Qed.

(** The four ways a call of [download_binary] can go. *)
Lemma download_binary_cases (e : env) (w : world) :
  (get_platform_suffix e = None /\
   download_binary e w =
   (Ok None,
    mk_world (files w) (requests w)
      (printed w ++ [MsgUnsupported (platform_system e) (platform_machine e)])))
  \/
  (exists ms,
     latest_release e = None /\
     (ms = [] \/ ms = [MsgFetchFailed FetchError]) /\
     download_binary e w =
     if isfile (files w) (binary_file e)
     then (Ok (Some (binary_file e)),
           mk_world (files w) (requests w ++ [RELEASES_URL]) (printed w ++ ms))
     else (Ok None,
           mk_world (files w) (requests w ++ [RELEASES_URL])
                    ((printed w ++ ms) ++ [MsgNoReleaseInfo])))
  \/
  (exists sfx rel,
     get_platform_suffix e = Some sfx /\ latest_release e = Some rel /\
     Py.truthy (find_asset_url (archive_name rel sfx) (assets_of rel)) = false /\
     download_binary e w =
     (Ok None,
      mk_world (files w) (requests w ++ [RELEASES_URL])
               (printed w ++ [MsgNoAsset (archive_name rel sfx)])))
  \/
  (exists sfx rel url,
     get_platform_suffix e = Some sfx /\ latest_release e = Some rel /\
     find_asset_url (archive_name rel sfx) (assets_of rel) = Some url /\
     url <> EmptyString /\
     download_binary e w =
     if is_current (files w) (binary_file e) (version_file e) (version_of rel)
     then (Ok (Some (binary_file e)), listed w)
     else
       match install_steps e (storage_dir e) (binary_file e) (version_file e)
               (archive_name rel sfx) url (version_of rel)
               (downloading w (archive_name rel sfx)) with
       | (Ok o, w1) => (Ok o, w1)
       | (Raise x, w1) => fallback e x w1
       end).
Proof.
  destruct (get_platform_suffix e) as [sfx|] eqn:Hs.
  2: { left. split; [reflexivity|]. now apply download_binary_unsupported. }
  right. destruct (latest_release e) as [rel|] eqn:Hl.
  2: { left. destruct (download_binary_no_release_run e w sfx Hs Hl)
         as (ms & Hms & Hrun). exists ms. auto. }
  right. unfold latest_release in Hl.
  destruct (listing e) as [rs|] eqn:Hrs; [|discriminate Hl].
  destruct (Py.truthy (find_asset_url (archive_name rel sfx) (assets_of rel)))
    eqn:Ha.
  2: { left. exists sfx, rel.
       repeat split;
         first [ reflexivity | assumption
               | unfold latest_release; rewrite Hrs; assumption
               | apply (download_binary_no_asset e w sfx rs rel); assumption ]. }
  right.
  destruct (find_asset_url (archive_name rel sfx) (assets_of rel))
    as [url|] eqn:Hu; [|discriminate Ha].
  assert (url <> EmptyString) as Hne by (intros ->; discriminate Ha).
  exists sfx, rel, url.
  repeat split;
    first [ reflexivity | assumption
          | unfold latest_release; rewrite Hrs; assumption
          | apply (download_binary_found e w sfx rs rel url); assumption ].
Qed.

Lemma find_asset_url_some (name url : string) (l : list asset) :
  find_asset_url name l = Some url ->
  exists a, In a l /\ asset_name a = name /\ browser_download_url a = url.
Proof.
  induction l as [|a l IH]; simpl; [discriminate|].
  destruct (String.eqb (asset_name a) name) eqn:Hn.
  - intros [= <-]. apply String.eqb_eq in Hn. eauto.
  - intros H. destruct (IH H) as (b & Hb & Hrest). eauto.
Qed.


(** The call printed the download line and one more line: it ran the [try]
    block for the archive named in the download line, and the last line
    tells how the block ended. *)
Lemma download_tried_inv (e : env) (w w' : world)
    (r : result (option string)) (name : string) (last : msg) :
  download_binary e w = (r, w') ->
  printed w' = printed w ++ [MsgDownloading name; last] ->
  exists sfx rel url res w1,
    get_platform_suffix e = Some sfx /\ latest_release e = Some rel /\
    find_asset_url (archive_name rel sfx) (assets_of rel) = Some url /\
    url <> EmptyString /\
    is_current (files w) (binary_file e) (version_file e) (version_of rel)
      = false /\
    name = archive_name rel sfx /\
    install_steps e (storage_dir e) (binary_file e) (version_file e)
      (archive_name rel sfx) url (version_of rel)
      (downloading w (archive_name rel sfx)) = (res, w1) /\
    ((exists o, res = Ok o /\ r = Ok o /\ w' = w1 /\
                last = MsgInstalled (version_of rel)) \/
     (exists x, res = Raise x /\ (r, w') = fallback e x w1 /\
                last = MsgDownloadFailed x)).
Proof.
  intros Hrun Hp.
  destruct (download_binary_cases e w)
    as [(_ & H) | [(ms & _ & Hms & H) | [(sfx & rel & _ & _ & _ & H)
       | (sfx & rel & url & Hs & Hl & Hu & Hne & H)]]];
    rewrite H in Hrun.
  - injection Hrun as <- <-. cbn [printed] in Hp.
    apply app_inv_head in Hp. discriminate Hp.
  - destruct (isfile _ _); injection Hrun as <- <-; cbn [printed] in Hp;
      rewrite <- ?app_assoc in Hp; apply app_inv_head in Hp;
      destruct Hms as [-> | ->]; discriminate Hp.
  - injection Hrun as <- <-. cbn [printed] in Hp.
    apply app_inv_head in Hp. discriminate Hp.
  - destruct (is_current _ _ _ _) eqn:Hc.
    { injection Hrun as <- <-. cbn [listed printed] in Hp.
      rewrite <- (app_nil_r (printed w)) in Hp at 1.
      apply app_inv_head in Hp. discriminate Hp. }
    destruct (install_steps _ _ _ _ _ _ _ _) as [[o|x] w1] eqn:Hi.
    + injection Hrun as <- <-.
      pose proof (install_steps_ok_inv _ _ _ _ _ _ _ Hi)
        as (_ & _ & _ & _ & _ & _ & _ & _ & _ & _ & _ & Hpr).
      rewrite Hpr in Hp. cbn [downloading printed] in Hp.
      rewrite <- app_assoc in Hp. apply app_inv_head in Hp.
      injection Hp as <- <-.
      exists sfx, rel, url, (Ok o), w1. repeat split; try assumption.
      left. exists o. auto.
    + pose proof Hi as Hc'. apply install_steps_cases in Hc'
        as (_ & [(Hz & _) | (z & Hz & Hpr & _)]); [discriminate Hz|].
      injection Hz as <-.
      assert (Hw : printed w' = printed w1 ++ [MsgDownloadFailed x])
        by (unfold fallback in Hrun; now injection Hrun as <- <-).
      rewrite Hw, Hpr in Hp. cbn [downloading printed] in Hp.
      rewrite <- app_assoc in Hp. apply app_inv_head in Hp.
      injection Hp as <- <-.
      exists sfx, rel, url, (Raise x), w1. repeat split; try assumption.
      right. exists x. auto.
Qed.

Lemma exec_bits_set (mode : Z) : Z.land (add_exec_bits mode) 73 = 73%Z.
Proof.
  unfold add_exec_bits, S_IXUSR, S_IXGRP, S_IXOTH.
  rewrite <- !Z.lor_assoc. change (Z.lor 64 (Z.lor 8 1)) with 73%Z.
  apply Z.bits_inj'. intros i Hi.
  rewrite Z.land_spec, Z.lor_spec.
  destruct (Z.testbit mode i), (Z.testbit 73 i); reflexivity.
Qed.

(** ** What [download_binary] touches and requests *)

(** X21.  Before it prints the download line [download_binary] writes
    nothing: a call that does not print that line leaves every file as it
    was and has sent no request, or the one for the release listing. *)
Theorem no_download_line_no_change (e : env) (w : world) :
  let w' := snd (download_binary e w) in
  (forall name rest, printed w' <> printed w ++ MsgDownloading name :: rest) ->
  files w' = files w /\
  (requests w' = requests w \/ requests w' = requests w ++ [RELEASES_URL]).
Proof.
  cbv zeta.
  destruct (download_binary_cases e w)
    as [(_ & H) | [(ms & _ & _ & H) | [(sfx & rel & _ & _ & _ & H)
       | (sfx & rel & url & _ & _ & _ & _ & H)]]];
    rewrite H; cbn [snd files requests]; auto.
  - destruct (isfile _ _); cbn [snd files requests]; auto.
  - destruct (is_current _ _ _ _); [cbn [snd listed files requests]; auto|].
    intros Hno. exfalso.
    destruct (install_steps _ _ _ _ _ _ _ _) as [[o|x] w1] eqn:Hi;
      apply install_steps_cases in Hi
        as (_ & [(Hz & Hpr & _) | (z & Hz & Hpr & _)]);
      try discriminate Hz; cbn [fallback snd printed] in Hno;
      rewrite Hpr in Hno; cbn [downloading printed] in Hno;
      rewrite <- ?app_assoc in Hno; eapply Hno; reflexivity.
Qed.

Lemma no_download_line_no_change_witness :
  files (snd (download_binary mac_host (installed_storage "2.3.1"))) =
    files (installed_storage "2.3.1") /\
  (requests (snd (download_binary mac_host (installed_storage "2.3.1"))) =
     requests (installed_storage "2.3.1") \/
   requests (snd (download_binary mac_host (installed_storage "2.3.1"))) =
     requests (installed_storage "2.3.1") ++ [RELEASES_URL]).
Proof.
  apply (no_download_line_no_change mac_host (installed_storage "2.3.1")).
  intros name rest H. vm_compute in H. discriminate H.
Defined.

(** X7.  A call of [download_binary] sends no request, or the one for the
    release listing, or that one followed by one download; the URL
    downloaded is the [browser_download_url] of an asset of the latest
    release that ships the binary, named after the version and the
    platform tag. *)
Theorem download_binary_request_discipline (e : env) (w : world) :
  let w' := snd (download_binary e w) in
  requests w' = requests w \/
  requests w' = requests w ++ [RELEASES_URL] \/
  exists sfx rel a,
    get_platform_suffix e = Some sfx /\ latest_release e = Some rel /\
    In a (assets_of rel) /\ asset_name a = archive_name rel sfx /\
    requests w' = requests w ++ [RELEASES_URL; browser_download_url a].
Proof.
  cbv zeta.
  destruct (download_binary_cases e w)
    as [(_ & H) | [(ms & _ & _ & H) | [(sfx & rel & _ & _ & _ & H)
       | (sfx & rel & url & Hs & Hl & Hu & _ & H)]]];
    rewrite H; auto.
  - destruct (isfile _ _); auto.
  - destruct (is_current _ _ _ _); [auto|].
    right. right.
    apply find_asset_url_some in Hu as (a & Ha & Hn & <-).
    exists sfx, rel, a. repeat split; try assumption.
    destruct (install_steps _ _ _ _ _ _ _ _) as [[o|x] w1] eqn:Hi;
      apply install_steps_effects in Hi as (Hr & _);
      cbn [fallback snd requests]; rewrite Hr;
      cbn [downloading requests]; now rewrite <- app_assoc.
Qed.





(** ** After a successful installation *)

(** X10.  When [download_binary] prints the success line, it returns the
    path of the binary; the archive named in the download line is the one
    of the latest release for this platform and is gone from the storage
    directory; the version file holds exactly the version printed, which
    is the release's tag without its leading v's; and the binary exists
    and passes the execute test. *)
Theorem successful_install_state (e : env) (w w' : world)
    (r : result (option string)) (name v : string) :
  download_binary e w = (r, w') ->
  printed w' = printed w ++ [MsgDownloading name; MsgInstalled v] ->
  r = Ok (Some (binary_file e)) /\
  exists sfx rel,
    get_platform_suffix e = Some sfx /\ latest_release e = Some rel /\
    name = archive_name rel sfx /\ v = version_of rel /\
    lookup_file (files w') (archive_file e rel sfx) = None /\
    (exists mode, lookup_file (files w') (version_file e) = Some (mk_file mode v)) /\
    isfile (files w') (binary_file e) = true /\
    access_x (files w') (binary_file e) = true.
Proof.
  intros Hrun Hp.
  destruct (download_tried_inv e w w' r name _ Hrun Hp)
    as (sfx & rel & url & res & w1 & Hs & Hl & _ & _ & _ & -> & Hi
        & [(o & -> & -> & -> & Hv) | (x & _ & _ & Hx)]); [|discriminate Hx].
  injection Hv as ->.
  apply install_steps_ok_inv in Hi
    as (body & members & fb & mv & _ & _ & _ & Hb & Ha & Hm & -> & _).
  split; [reflexivity|]. exists sfx, rel.
  repeat (split; [assumption || reflexivity|]).
  unfold isfile, access_x.
  rewrite !lookup_file_nonempty
    by (apply archive_file_nonempty || apply version_file_nonempty
        || apply binary_file_nonempty).
  rewrite Hb, Ha, Hm. cbn [st_mode]. rewrite exec_bits_set.
  split; [reflexivity|]. split; [eauto|]. split; [|reflexivity].
  apply bool_decide_eq_true_2. eauto.
Qed.

Lemma successful_install_state_witness :
  fst (download_binary linux_host empty_storage) =
    Ok (Some (binary_file linux_host)) /\
  exists sfx rel,
    get_platform_suffix linux_host = Some sfx /\
    latest_release linux_host = Some rel /\
    "fleet-schema-gen-2.3.1-linux-x64.tar.gz" = archive_name rel sfx /\
    "2.3.1" = version_of rel /\
    lookup_file (files (snd (download_binary linux_host empty_storage)))
      (archive_file linux_host rel sfx) = None /\
    (exists mode,
       lookup_file (files (snd (download_binary linux_host empty_storage)))
         (version_file linux_host) = Some (mk_file mode "2.3.1")) /\
    isfile (files (snd (download_binary linux_host empty_storage)))
      (binary_file linux_host) = true /\
    access_x (files (snd (download_binary linux_host empty_storage)))
      (binary_file linux_host) = true.
Proof.
  apply (successful_install_state linux_host empty_storage
           (snd (download_binary linux_host empty_storage))
           (fst (download_binary linux_host empty_storage))
           "fleet-schema-gen-2.3.1-linux-x64.tar.gz" "2.3.1").
  - vm_compute. reflexivity.
  - vm_compute. reflexivity.
Defined.

(** X12.  A call of [download_binary] that follows a successful one, on
    the same host, finds the installation current and stops after the
    listing request, without touching a file or printing a line, exactly
    when the version written has no white space at either end; when it
    has, the version file never compares equal and the call starts the
    download of the same archive again. *)
Theorem second_call_after_install (e : env) (w w' : world)
    (r : result (option string)) (name v : string) :
  download_binary e w = (r, w') ->
  printed w' = printed w ++ [MsgDownloading name; MsgInstalled v] ->
  (Py.strip v = v ->
   download_binary e w' =
   (Ok (Some (binary_file e)),
    mk_world (files w') (requests w' ++ [RELEASES_URL]) (printed w')))
  /\
  (Py.strip v <> v ->
   exists rest,
     printed (snd (download_binary e w')) =
     printed w' ++ MsgDownloading name :: rest).
Proof.
  intros Hrun Hp.
  destruct (download_tried_inv e w w' r name _ Hrun Hp)
    as (sfx & rel & url & res & w1 & Hs & Hl & Hu & Hne & _ & -> & Hi
        & [(o & -> & -> & -> & Hv) | (x & _ & _ & Hx)]); [|discriminate Hx].
  injection Hv as ->.
  apply install_steps_ok_inv in Hi
    as (body & members & fb & mv & _ & _ & _ & Hb & _ & Hm & _ & _).
  unfold latest_release in Hl.
  destruct (listing e) as [rs|] eqn:Hrs; [|discriminate Hl].
  rewrite (download_binary_found e w1 sfx rs rel url) by assumption.
  assert (Hcur : is_current (files w1) (binary_file e) (version_file e)
                   (version_of rel)
                 = String.eqb (Py.strip (version_of rel)) (version_of rel)).
  { unfold is_current.
    rewrite !lookup_file_nonempty
      by (apply version_file_nonempty || apply binary_file_nonempty).
    rewrite Hb, Hm. reflexivity. }
  rewrite Hcur. split.
  - intros Hstrip. rewrite Hstrip, String.eqb_refl. reflexivity.
  - intros Hstrip. apply String.eqb_neq in Hstrip. rewrite Hstrip.
    destruct (install_steps _ _ _ _ _ _ _ _) as [[o2|x] w2] eqn:Hi2;
      apply install_steps_cases in Hi2
        as (_ & [(Hz & Hpr & _) | (z & Hz & Hpr & _)]);
      try discriminate Hz; cbn [fallback snd printed]; rewrite Hpr;
      cbn [downloading printed]; rewrite <- !app_assoc; eexists; reflexivity.
Qed.

Lemma second_call_after_install_witness :
  download_binary linux_host (snd (download_binary linux_host empty_storage)) =
  (Ok (Some (binary_file linux_host)),
   mk_world (files (snd (download_binary linux_host empty_storage)))
            (requests (snd (download_binary linux_host empty_storage))
             ++ [RELEASES_URL])
            (printed (snd (download_binary linux_host empty_storage)))).
Proof.
  refine (proj1
    (second_call_after_install linux_host empty_storage
       (snd (download_binary linux_host empty_storage))
       (fst (download_binary linux_host empty_storage))
       "fleet-schema-gen-2.3.1-linux-x64.tar.gz" "2.3.1" _ _) _).
  - vm_compute. reflexivity.
  - vm_compute. reflexivity.
  - reflexivity.
Defined.

(** ** After a failed installation *)

(** X13.  When the [try] block of [download_binary] fails in the download
    or in opening the archive, every file other than the archive named in
    the download line is what it was before the call; the binary and the
    version file of an earlier installation are among them. *)
Theorem failed_download_keeps_files (e : env) (w w' : world)
    (r : result (option string)) (name : string) (x : exn) (q : string) :
  download_binary e w = (r, w') ->
  printed w' = printed w ++ [MsgDownloading name; MsgDownloadFailed x] ->
  download_failure x = true ->
  q <> Py.path_join (storage_dir e) name ->
  files w' !! q = files w !! q.
Proof.
  intros Hrun Hp Hx Hq.
  destruct (download_tried_inv e w w' r name _ Hrun Hp)
    as (sfx & rel & url & res & w1 & _ & _ & _ & _ & _ & -> & Hi
        & [(o & _ & _ & _ & Hv) | (y & -> & Hf & Hy)]); [discriminate Hv|].
  injection Hy as <-. unfold fallback in Hf. injection Hf as _ ->.
  cbn [files].
  apply install_steps_raise_inv in Hi
    as [(_ & [Hfr _]) | (body & mode & w0 & _ & F0 & Hcase)].
  - now apply Hfr.
  - destruct Hcase as [(_ & ->) | [([-> | [-> | [-> | ->]]] & _) | [-> | ->]]];
      try discriminate Hx.
    rewrite F0. cbn [downloading files]. now apply lookup_insert_ne.
Qed.

Lemma failed_download_keeps_files_witness :
  files (snd (download_binary linux_host_no_download (installed_storage "2.3.0")))
    !! binary_file linux_host_no_download =
  files (installed_storage "2.3.0") !! binary_file linux_host_no_download.
Proof.
  apply (failed_download_keeps_files linux_host_no_download
           (installed_storage "2.3.0") _
           (fst (download_binary linux_host_no_download (installed_storage "2.3.0")))
           "fleet-schema-gen-2.3.1-linux-x64.tar.gz" URLError).
  - vm_compute. reflexivity.
  - vm_compute. reflexivity.
  - reflexivity.
  - vm_compute. discriminate.
Defined.

(** X14.  When the [try] block of [download_binary] fails after the
    archive is stored and before it is removed (decoding, extraction,
    permission change or the removal itself), the archive stays in the
    storage directory with the body that was downloaded: nothing removes
    it on the failure path. *)
Theorem archive_left_behind (e : env) (w w' : world)
    (r : result (option string)) (name : string) (x : exn) :
  download_binary e w = (r, w') ->
  printed w' = printed w ++ [MsgDownloading name; MsgDownloadFailed x] ->
  raised_with_archive_stored x = true ->
  exists url body mode,
    http_get e url = HttpBody body /\
    lookup_file (files w') (Py.path_join (storage_dir e) name) =
      Some (mk_file mode body).
Proof.
  intros Hrun Hp Hx.
  destruct (download_tried_inv e w w' r name _ Hrun Hp)
    as (sfx & rel & url & res & w1 & _ & _ & _ & _ & _ & -> & Hi
        & [(o & _ & _ & _ & Hv) | (y & -> & Hf & Hy)]); [discriminate Hv|].
  injection Hy as <-. unfold fallback in Hf. injection Hf as _ ->.
  cbn [files].
  change (Py.path_join (storage_dir e) (archive_name rel sfx))
    with (archive_file e rel sfx).
  rewrite lookup_file_nonempty by apply archive_file_nonempty.
  apply install_steps_raise_inv in Hi
    as [([-> | [-> | [-> | ->]]] & _) | (body & mode & w0 & Hh & F0 & Hcase)];
    try discriminate Hx.
  exists url, body, mode. split; [exact Hh|].
  destruct Hcase as [(_ & ->) | [(_ & [Hfr _]) | [-> | ->]]];
    try discriminate Hx.
  - rewrite F0. apply lookup_insert_eq.
  - rewrite Hfr by apply archive_binary_distinct.
    rewrite F0. apply lookup_insert_eq.
Qed.

Lemma archive_left_behind_witness :
  exists url body mode,
    http_get linux_host_unlink_fails url = HttpBody body /\
    lookup_file
      (files (snd (download_binary linux_host_unlink_fails empty_storage)))
      (Py.path_join (storage_dir linux_host_unlink_fails)
         "fleet-schema-gen-2.3.1-linux-x64.tar.gz") =
      Some (mk_file mode body).
Proof.
  apply (archive_left_behind linux_host_unlink_fails empty_storage
           (snd (download_binary linux_host_unlink_fails empty_storage))
           (fst (download_binary linux_host_unlink_fails empty_storage))
           "fleet-schema-gen-2.3.1-linux-x64.tar.gz" UnlinkError).
  - vm_compute. reflexivity.
  - vm_compute. reflexivity.
  - reflexivity.
Defined.

(** ** Local resolution *)

Lemma usable_test (fs : gmap string file) (p : string) :
  isfile fs p && access_x fs p = true <-> usable fs p.
Proof. unfold usable. apply andb_true_iff. Qed.

Lemma first_executable_first (fs : gmap string file) (paths : list string) :
  match first_executable fs paths with
  | Some p =>
      exists before after,
        paths = before ++ p :: after /\ usable fs p /\
        Forall (fun q => ~ usable fs q) before
  | None => Forall (fun q => ~ usable fs q) paths
  end.
Proof.
  induction paths as [|p ps IH]; simpl; [constructor|].
  destruct (isfile fs p && access_x fs p) eqn:Ht.
  - exists [], ps. apply usable_test in Ht. auto.
  - assert (~ usable fs p) as Hp by (rewrite <- usable_test, Ht; discriminate).
    destruct (first_executable fs ps) as [p'|].
    + destruct IH as (before & after & -> & Hp' & Hb).
      exists (p :: before), after. auto.
    + constructor; assumption.
Qed.

Lemma usable_nonempty (fs : gmap string file) (p : string) :
  usable fs p -> p <> EmptyString.
Proof.
  intros [Hf _] ->. unfold isfile in Hf. cbn in Hf. discriminate Hf.
Qed.

Lemma first_executable_in (fs : gmap string file) (paths : list string) (p : string) :
  first_executable fs paths = Some p -> In p paths /\ isfile fs p = true.
Proof.
  induction paths as [|q qs IH]; simpl; [discriminate|].
  destruct (isfile fs q && access_x fs q) eqn:Ht.
  - intros [= <-]. apply andb_true_iff in Ht as [Hf _]. auto.
  - intros H. destruct (IH H) as (Hin & Hf). auto.
Qed.

Lemma first_executable_none (fs : gmap string file) (paths : list string) :
  (forall q, In q paths -> isfile fs q = false) ->
  first_executable fs paths = None.
Proof.
  induction paths as [|q qs IH]; simpl; intros H; [reflexivity|].
  rewrite (H q) by auto. cbn [andb]. apply IH. intros q' Hq. apply H. auto.
Qed.

(** X1.  [find_binary_in_common_paths] leaves the world as it was.  What
    it returns is one of its four candidates, the cargo directory under
    the home directory, [/opt/homebrew/bin], [/usr/local/bin] and
    [/usr/bin], and a file is at the path returned; when none of the four
    names a file it returns nothing.  (Which files pass the execute test
    is not part of the statement.) *)
Theorem common_paths_result (e : env) (w : world) :
  exists o,
    find_binary_in_common_paths e w = (Ok o, w) /\
    (forall p, o = Some p ->
       (p = Py.path_join (Py.path_join (Py.path_join (home e) ".cargo") "bin")
                         "fleet-schema-gen" \/
        p = "/opt/homebrew/bin/fleet-schema-gen" \/
        p = "/usr/local/bin/fleet-schema-gen" \/
        p = "/usr/bin/fleet-schema-gen") /\
       is_Some (lookup_file (files w) p)) /\
    ((forall q, In q (common_paths e) -> lookup_file (files w) q = None) ->
     o = None).
Proof.
  exists (first_executable (files w) (common_paths e)).
  split; [reflexivity|]. split.
  - intros p Hp. apply first_executable_in in Hp as (Hin & Hf). split.
    + destruct Hin as [<- | [<- | [<- | [<- | []]]]]; auto.
    + unfold isfile in Hf. now apply bool_decide_eq_true_1 in Hf.
  - intros Hnone. apply first_executable_none. intros q Hq.
    unfold isfile. rewrite (Hnone q Hq).
    apply bool_decide_eq_false_2. intros [? H]; discriminate H.
Qed.

(** X2.  When one of the three local strategies finds a binary,
    [get_binary_path] returns a non-empty path and leaves the world as it
    was: no request, no file written, nothing printed.  The path is the
    configured one if that names a file; otherwise the one found on the
    search path if there is one; otherwise the first usable well-known
    candidate. *)
Theorem local_binary_found_offline (e : env) (w : world) :
  configured_file (files w) (setting_binary_path e) = true \/
  Py.truthy (find_binary_in_path e) = true \/
  is_Some (first_executable (files w) (common_paths e)) ->
  exists p,
    get_binary_path e w = (Ok (Some p), w) /\ p <> EmptyString /\
    (configured_file (files w) (setting_binary_path e) = true ->
     setting_binary_path e = Some p) /\
    (configured_file (files w) (setting_binary_path e) = false ->
     Py.truthy (find_binary_in_path e) = true ->
     find_binary_in_path e = Some p) /\
    (configured_file (files w) (setting_binary_path e) = false ->
     Py.truthy (find_binary_in_path e) = false ->
     first_executable (files w) (common_paths e) = Some p).
Proof.
  intros Hany.
  unfold get_binary_path, find_binary_in_common_paths. unfold_m.
  destruct (configured_file (files w) (setting_binary_path e)) eqn:Hc.
  { unfold configured_file in Hc.
    destruct (setting_binary_path e) as [p|]; [|discriminate Hc].
    apply andb_true_iff in Hc as [Ht _].
    exists p. split; [reflexivity|]. split; [intros ->; discriminate Ht|].
    repeat split; intros; discriminate || reflexivity. }
  destruct (Py.truthy (find_binary_in_path e)) eqn:Hw.
  { destruct (find_binary_in_path e) as [p|]; [|discriminate Hw].
    exists p. split; [reflexivity|]. split; [intros ->; discriminate Hw|].
    repeat split; intros; discriminate || reflexivity. }
  destruct Hany as [Hany | [Hany | [p Hp]]]; try discriminate Hany.
  pose proof (first_executable_first (files w) (common_paths e)) as Hfirst.
  rewrite Hp in *. destruct Hfirst as (_ & _ & _ & Hu & _).
  apply usable_nonempty in Hu.
  assert (Py.truthy (Some p) = true) as ->
    by (destruct p; [congruence | reflexivity]).
  exists p. split; [reflexivity|]. split; [exact Hu|].
  repeat split; intros; discriminate || reflexivity.
Qed.

Lemma local_binary_found_offline_witness :
  exists p,
    get_binary_path configured_host (installed_storage "2.3.0") =
      (Ok (Some p), installed_storage "2.3.0") /\
    p <> EmptyString /\
    (configured_file (files (installed_storage "2.3.0"))
       (setting_binary_path configured_host) = true ->
     setting_binary_path configured_host = Some p) /\
    (configured_file (files (installed_storage "2.3.0"))
       (setting_binary_path configured_host) = false ->
     Py.truthy (find_binary_in_path configured_host) = true ->
     find_binary_in_path configured_host = Some p) /\
    (configured_file (files (installed_storage "2.3.0"))
       (setting_binary_path configured_host) = false ->
     Py.truthy (find_binary_in_path configured_host) = false ->
     first_executable (files (installed_storage "2.3.0"))
       (common_paths configured_host) = Some p).
Proof.
  apply (local_binary_found_offline configured_host (installed_storage "2.3.0")).
  right. left. reflexivity.
Defined.

(** X3.  When none of the three local strategies finds a binary,
    [get_binary_path] is [download_binary]: same result, same requests,
    same files, same lines printed. *)
Theorem get_binary_path_falls_back_to_download (e : env) (w : world) :
  no_local_binary e w -> get_binary_path e w = download_binary e w.
Proof.
  intros (Hc & Hw & Hp).
  unfold get_binary_path, find_binary_in_common_paths. unfold_m.
  rewrite Hc, Hw, Hp. cbn [Py.truthy].
  destruct (download_binary_returns e w) as (o & w' & -> & [-> | ->]);
    [reflexivity|].
  pose proof (binary_file_nonempty e) as Hne.
  destruct (binary_file e); [congruence | reflexivity].
Qed.

Lemma get_binary_path_falls_back_to_download_witness :
  get_binary_path linux_host empty_storage =
  download_binary linux_host empty_storage.
Proof.
  apply (get_binary_path_falls_back_to_download linux_host empty_storage).
  repeat split; vm_compute; reflexivity.
Defined.

(** ** Version probe *)

(** Two answers of the probe for the same binary are the same answer. *)
Ltac same_probe :=
  repeat match goal with
         | Hp : run_version ?e ?b ?fs = _, H : run_version ?e ?b ?fs = _ |- _ =>
             rewrite Hp in H; first [discriminate H | injection H as ?; subst]
         end.

(** X20.  What [server_version] does once [get_binary_path] has run.  If
    the resolution raised, the exception propagates: the call is made
    before the [try].  If it returned, [server_version] returns too: the
    last white-space-delimited token of the probe's standard output when
    the probe of the resolved binary exits with code 0 and printed a token,
    and ["unknown"] in every other case: no binary, the probe raising
    (timeout, no file at the path), a non-zero exit code, or an output
    without any token. *)
Theorem server_version_after_resolution (e : env) (w w1 : world)
    (r : result (option string)) :
  get_binary_path e w = (r, w1) ->
  match r with
  | Raise x => FleetLsp.server_version e w = (Raise x, w1)
  | Ok binary =>
      exists v,
        FleetLsp.server_version e w = (Ok v, w1) /\
        (forall b out tok,
           binary = Some b -> run_version e b (files w1) = ProbeExit 0 out ->
           last_token out tok -> v = tok) /\
        (binary = None -> v = "unknown") /\
        (forall b, binary = Some b -> run_version e b (files w1) = ProbeRaised ->
                   v = "unknown") /\
        (forall b code out,
           binary = Some b -> run_version e b (files w1) = ProbeExit code out ->
           code <> 0%Z -> v = "unknown") /\
        (forall b out,
           binary = Some b -> run_version e b (files w1) = ProbeExit 0 out ->
           blank out = true -> v = "unknown")
  end.
Proof.
  intros Hrun. destruct r as [binary|x].
  2: { unfold FleetLsp.server_version, bind. rewrite Hrun. reflexivity. }
  pose proof (get_binary_path_truthy _ _ _ _ Hrun) as Hb.
  unfold FleetLsp.server_version, FleetLsp.subprocess_run, FleetLsp.last_or_raise.
  rewrite (bind_ok _ _ _ _ _ Hrun).
  destruct binary as [[|c b]|]; [destruct Hb; discriminate| |].
  2: { exists "unknown". split; [reflexivity|].
       repeat split; try discriminate; reflexivity. }
  unfold_m. destruct (run_version e (String c b) (files w1)) as [|code out] eqn:Hp.
  { exists "unknown". split; [reflexivity|].
    repeat split; try reflexivity; intros; simplify_eq; same_probe. }
  cbn [fst snd]. destruct (Z.eqb_spec code 0) as [-> | Hcode].
  2: { exists "unknown". split; [reflexivity|].
       repeat split; try reflexivity;
         intros; simplify_eq; same_probe; congruence. }
  rewrite split_strip.
  destruct (blank_or_last_token out) as [Hblank | (tok & Htok)].
  - assert (Hnone : Py.last_item (Py.split out) = None).
    { unfold Py.split. rewrite split_from_blank by assumption. reflexivity. }
    rewrite Hnone.
    exists "unknown". split; [reflexivity|].
    repeat split; try reflexivity; intros; simplify_eq; same_probe.
    match goal with H : last_token _ _ |- _ => apply last_token_split in H end.
    congruence.
  - pose proof (last_token_split _ _ Htok) as Hsome. rewrite Hsome.
    exists tok. split; [reflexivity|].
    repeat split; intros; simplify_eq; same_probe; try congruence.
    + match goal with H : last_token _ _ |- _ => apply last_token_split in H end.
      congruence.
    + unfold Py.split in Hsome.
      rewrite split_from_blank in Hsome by assumption. discriminate.
Qed.

Lemma server_version_after_resolution_witness :
  exists v,
    FleetLsp.server_version linux_host (installed_storage "2.3.1") =
      (Ok v, snd (get_binary_path linux_host (installed_storage "2.3.1"))) /\
    v = "old".
Proof.
  destruct (server_version_after_resolution linux_host (installed_storage "2.3.1")
              (snd (get_binary_path linux_host (installed_storage "2.3.1")))
              (Ok (Some "/cache/Package Storage/LSP-fleet/fleet-schema-gen")))
    as (v & Hrun & Htok & _).
  - vm_compute. reflexivity.
  - exists v. split; [exact Hrun|].
    apply (Htok "/cache/Package Storage/LSP-fleet/fleet-schema-gen" "binary old").
    + reflexivity.
    + vm_compute. reflexivity.
    + split; [discriminate|]. split; [reflexivity|].
      exists "binary ", EmptyString. split; [reflexivity|]. split; [reflexivity|].
      right. exists "binary", " "%char. split; reflexivity.
Defined.

(** ** The plugin's hooks *)



(** X5.  What [additional_variables] does once [get_binary_path] has run
    (the call is unguarded: an exception of the resolution propagates, from
    this hook and from [needs_update_or_installation] alike).  If the
    resolution returned, the hook yields the single key [binary_path]; its
    value is the path resolved, which is never empty, and the empty string
    exactly when nothing is resolved, that is, exactly when
    [needs_update_or_installation] answers [True] in the same world. *)
Theorem additional_variables_binary_path (e : env) (w w' : world)
    (r : result (option string)) :
  get_binary_path e w = (r, w') ->
  match r with
  | Raise x =>
      FleetLsp.additional_variables e w = (Raise x, w') /\
      FleetLsp.needs_update_or_installation e w = (Raise x, w')
  | Ok o =>
      exists v,
        FleetLsp.additional_variables e w = (Ok [("binary_path", v)], w') /\
        (o = None /\ v = EmptyString \/ o = Some v /\ v <> EmptyString) /\
        FleetLsp.needs_update_or_installation e w =
          (Ok (if decide (v = EmptyString) then true else false), w')
  end.
Proof.
  intros Hrun.
  unfold FleetLsp.additional_variables, FleetLsp.needs_update_or_installation.
  destruct r as [o|x].
  2: { unfold bind. rewrite Hrun. split; reflexivity. }
  pose proof (get_binary_path_truthy _ _ _ _ Hrun) as Ho.
  rewrite !(bind_ok _ _ _ _ _ Hrun). unfold ret.
  destruct o as [[|c p]|].
  - destruct Ho as [Ho | Ho]; discriminate Ho.
  - exists (String c p). split; [reflexivity|].
    split; [right; split; [reflexivity | discriminate]|].
    destruct (decide _) as [Heq|_]; [discriminate Heq | reflexivity].
  - exists EmptyString. split; [reflexivity|]. split; [auto|].
    destruct (decide _) as [_|Hneq]; [reflexivity | congruence].
Qed.

Lemma additional_variables_binary_path_witness :
  exists v,
    FleetLsp.additional_variables configured_host two_binaries =
      (Ok [("binary_path", v)], two_binaries) /\
    (Some "/opt/tools/fleet-schema-gen" = None /\ v = EmptyString \/
     Some "/opt/tools/fleet-schema-gen" = Some v /\ v <> EmptyString) /\
    FleetLsp.needs_update_or_installation configured_host two_binaries =
      (Ok (if decide (v = EmptyString) then true else false), two_binaries).
Proof.
  apply (additional_variables_binary_path configured_host two_binaries two_binaries
           (Ok (Some "/opt/tools/fleet-schema-gen"))).
  vm_compute. reflexivity.
Defined.

(** ** Version strings *)

Lemma lstrip_leading_vs (n : nat) (v : string) :
  Py.startswith v "v" = false -> Py.lstrip "v" (leading_vs n +:+ v) = v.
Proof.
  intros Hv. induction n as [|n IH].
  - change (leading_vs 0 +:+ v) with v.
    destruct v as [|c v]; [reflexivity|].
    assert (Hc : Ascii.eqb c "v" = false).
    { destruct (Ascii.eqb c "v") eqn:Hc; [|reflexivity].
      apply Ascii.eqb_eq in Hc as ->. destruct v; discriminate Hv. }
    cbn [Py.lstrip Py.mem_char]. rewrite Hc. reflexivity.
  - cbn [leading_vs]. rewrite append_cons. exact IH.
Qed.

(** X15.  The version [download_binary] works with is the tag of the
    latest release with all of its leading v's removed, not just the
    first.  When the tag is some v's followed by a text that does not start
    with a v: every archive name the call prints (the asset it looks for,
    the archive it downloads) is built from that text and the platform
    tag, and the version it reports as installed is that text; an archive
    it requests is an asset of that name; and after the success line the
    version file holds that text. *)
Theorem version_drops_leading_vs (e : env) (w : world) (sfx : string)
    (rel : release) (n : nat) (v : string) :
  get_platform_suffix e = Some sfx ->
  latest_release e = Some rel ->
  tag_name rel = leading_vs n +:+ v ->
  Py.startswith v "v" = false ->
  let archive := "fleet-schema-gen-" +:+ v +:+ "-" +:+ sfx +:+ ".tar.gz" in
  let w' := snd (download_binary e w) in
  (exists ms,
     printed w' = printed w ++ ms /\
     Forall (fun m => names_version m archive v) ms) /\
  (forall url,
     requests w' = requests w ++ [RELEASES_URL; url] ->
     exists a, In a (assets_of rel) /\ asset_name a = archive /\
               browser_download_url a = url) /\
  (forall name,
     printed w' = printed w ++ [MsgDownloading name; MsgInstalled v] ->
     exists f, lookup_file (files w') (version_file e) = Some f /\
               contents f = v).
Proof.
  intros Hs Hl Htag Hv. cbv zeta.
  assert (Hver : version_of rel = v)
    by (unfold version_of; rewrite Htag; now apply lstrip_leading_vs).
  assert (Hname : archive_name rel sfx =
                  "fleet-schema-gen-" +:+ v +:+ "-" +:+ sfx +:+ ".tar.gz")
    by (unfold archive_name; rewrite Hver; reflexivity).
  destruct (download_binary_cases e w)
    as [(Hs' & H) | [(ms & Hl' & Hms & H) | [(sfx' & rel' & Hs' & Hl' & _ & H)
       | (sfx' & rel' & url & Hs' & Hl' & Hu & _ & H)]]];
    try congruence;
    assert (sfx' = sfx) as -> by congruence;
    assert (rel' = rel) as -> by congruence;
    rewrite H.
  - cbn [snd printed requests files]. split; [|split].
    + eexists. split; [reflexivity|]. constructor; [|constructor]. exact Hname.
    + intros url Hr. apply app_inv_head in Hr. discriminate Hr.
    + intros name Hp. apply app_inv_head in Hp. discriminate Hp.
  - destruct (is_current _ _ _ _).
    { cbn [snd listed printed requests files]. split; [|split].
      - exists []. split; [now rewrite app_nil_r | constructor].
      - intros url' Hr. apply app_inv_head in Hr. discriminate Hr.
      - intros name Hp. rewrite <- (app_nil_r (printed w)) in Hp at 1.
        apply app_inv_head in Hp. discriminate Hp. }
    apply find_asset_url_some in Hu as (a & Ha & Hn & Hurl).
    destruct (install_steps _ _ _ _ _ _ _ _) as [[o|x] w1] eqn:Hi;
      pose proof (install_steps_effects _ _ _ _ _ _ _ Hi) as (Hr & _);
      apply install_steps_cases in Hi
        as (_ & [(Hz & Hpr & _ & mode & Hm) | (z & Hz & Hpr & _)]);
      try discriminate Hz; cbn [fallback snd printed requests files];
      rewrite Hpr, Hr; cbn [downloading printed requests];
      rewrite <- ?app_assoc; cbn [app].
    + split; [|split].
      * eexists. split; [reflexivity|]. repeat constructor; assumption.
      * intros url' [= <-]%app_inv_head. exists a. repeat split; congruence.
      * intros name _. eexists.
        rewrite lookup_file_nonempty by apply version_file_nonempty.
        split; [exact Hm|]. exact Hver.
    + split; [|split].
      * eexists. split; [reflexivity|]. repeat constructor; assumption.
      * intros url' [= <-]%app_inv_head. exists a. repeat split; congruence.
      * intros name Hp%app_inv_head. discriminate Hp.
Qed.

Lemma version_drops_leading_vs_witness :
  (exists ms,
     printed (snd (download_binary linux_host_vv empty_storage)) =
       printed empty_storage ++ ms /\
     Forall (fun m => names_version m "fleet-schema-gen-2.3.1-linux-x64.tar.gz"
                        "2.3.1")
            ms) /\
  (forall url,
     requests (snd (download_binary linux_host_vv empty_storage)) =
       requests empty_storage ++ [RELEASES_URL; url] ->
     exists a, In a (assets_of release_vv) /\
               asset_name a = "fleet-schema-gen-2.3.1-linux-x64.tar.gz" /\
               browser_download_url a = url) /\
  (forall name,
     printed (snd (download_binary linux_host_vv empty_storage)) =
       printed empty_storage ++ [MsgDownloading name; MsgInstalled "2.3.1"] ->
     exists f,
       lookup_file (files (snd (download_binary linux_host_vv empty_storage)))
         (version_file linux_host_vv) = Some f /\
       contents f = "2.3.1").
Proof.
  apply (version_drops_leading_vs linux_host_vv empty_storage "linux-x64"
           release_vv 2 "2.3.1"); reflexivity.
Defined.

(** On a host whose release is tagged [vv2.3.1] the asset downloaded is the
    one named after [2.3.1], not the one named after [v2.3.1]. *)
Example two_vs_are_dropped :
  let '(r, w') := download_binary linux_host_vv empty_storage in
  requests w' = [RELEASES_URL; "https://example.test/no-v"] /\
  printed w' = [MsgDownloading "fleet-schema-gen-2.3.1-linux-x64.tar.gz";
                MsgInstalled "2.3.1"] /\
  files w' !! "/cache/Package Storage/LSP-fleet/version" = Some (mk_file 420 "2.3.1").
Proof. vm_compute. repeat split; reflexivity. Qed.

(** X16.  What [server_version] returns, when it returns, is never empty
    and never contains white space: it is a token of the probe's output or
    the word [unknown]. *)
Theorem server_version_is_a_word (e : env) (w w' : world) (v : string) :
  FleetLsp.server_version e w = (Ok v, w') ->
  v <> EmptyString /\ solid v = true.
Proof.
  unfold FleetLsp.server_version, FleetLsp.subprocess_run, FleetLsp.last_or_raise.
  intros H.
  apply bind_inv in H as [(x & _ & Hx) | (binary & w1 & _ & H)];
    [discriminate Hx|].
  assert (Hunknown : forall w2, (Ok "unknown", w2) = (Ok v, w') ->
                                v <> EmptyString /\ solid v = true).
  { intros w2 [= <- _]. split; [discriminate | reflexivity]. }
  destruct binary as [[|c b]|]; try (revert H; unfold_m; apply Hunknown).
  revert H. unfold_m.
  destruct (run_version e (String c b) (files w1)) as [|code out];
    [apply Hunknown|].
  cbn [fst snd]. destruct (code =? 0)%Z; [|apply Hunknown].
  rewrite split_strip.
  destruct (blank_or_last_token out) as [Hblank | (tok & Htok)].
  - unfold Py.split. rewrite split_from_blank by assumption. apply Hunknown.
  - rewrite (last_token_split _ _ Htok). destruct Htok as (Hne & Hs & _).
    intros [= <- _]. auto.
Qed.

Lemma server_version_is_a_word_witness :
  "old" <> EmptyString /\ solid "old" = true.
Proof.
  apply (server_version_is_a_word linux_host (installed_storage "2.3.1")
           (snd (FleetLsp.server_version linux_host (installed_storage "2.3.1")))
           "old").
  vm_compute. reflexivity.
Defined.

